(** * webex-skill: the unread-room pipeline and the send pipeline

    A shallow embedding of [scripts/fetch-unread.mjs] and
    [scripts/send-message.mjs].  JavaScript objects received from the
    provider (raw rooms, messages) and the people index are finite maps
    from property names to values; the object literals the scripts build
    themselves are records.  Built-ins the scripts call ([Date],
    the provider client) are parameters of the sections that use them. *)

From Stdlib Require Import ZArith Lia Bool Ascii String List.
From Stdlib Require Import Sorting.Sorted Sorting.Permutation.
From stdpp Require Import base option list strings gmap fin_maps pretty.

Set Warnings "-register-all".

Local Open Scope string_scope.
Local Open Scope Z_scope.

(** ** The JavaScript values the scripts handle *)

Module Js.

(** Values: the JSON values a provider response carries, and [undefined]
    for what is absent.  Numbers are integers of a magnitude below
    [10^21], which [String] prints in plain decimal digits.  A string is
    a sequence of code units below 256. *)
Inductive JsVal : Type :=
  | JUndefined
  | JNull
  | JBool (b : bool)
  | JNum (n : Z)
  | JStr (s : string)
  | JArr (items : list JsVal).

(** An object: own properties by name. *)
Abbreviation JsObj := (gmap string JsVal).

(** [o.k]: an absent property reads as [undefined]. *)
Definition get (o : JsObj) (k : string) : JsVal := default JUndefined (o !! k).

(** ToBoolean. *)
Definition truthy (v : JsVal) : bool :=
  match v with
  | JUndefined | JNull => false
  | JBool b => b
  | JNum n => negb (n =? 0)
  | JStr s => negb (String.eqb s "")
  | JArr _ => true
  end.

(** [v == null], true of [null] and [undefined] only. *)
Definition nullish (v : JsVal) : bool :=
  match v with
  | JUndefined | JNull => true
  | _ => false
  end.

(** [a || b] *)
Definition or_else (a b : JsVal) : JsVal := if truthy a then a else b.

(** [a ?? b] *)
Definition coalesce (a b : JsVal) : JsVal := if nullish a then b else a.

(** [a === b].  Arrays are compared by identity; the scripts only ever
    compare values that come from different responses, so two arrays are
    never the same object. *)
Definition strictEq (a b : JsVal) : bool :=
  match a, b with
  | JUndefined, JUndefined => true
  | JNull, JNull => true
  | JBool x, JBool y => Bool.eqb x y
  | JNum x, JNum y => x =? y
  | JStr x, JStr y => String.eqb x y
  | _, _ => false
  end.

(** SameValueZero, the comparison of [Array.prototype.includes] and of
    [Set.prototype.has]; it differs from [===] on NaN only, which no
    value here is. *)
Definition sameValueZero (a b : JsVal) : bool := strictEq a b.

(** [arr.includes(x)] *)
Definition includes (arr : list JsVal) (x : JsVal) : bool :=
  existsb (fun y => sameValueZero y x) arr.

(** [String(v)].  An array prints its elements separated by commas, with
    [null] and [undefined] elements printed as nothing. *)
Fixpoint toString (v : JsVal) : string :=
  match v with
  | JUndefined => "undefined"
  | JNull => "null"
  | JBool true => "true"
  | JBool false => "false"
  | JNum n => pretty n
  | JStr s => s
  | JArr items =>
      (fix join (l : list JsVal) : string :=
         match l with
         | [] => ""
         | x :: l' =>
             let sx := match x with
                       | JUndefined | JNull => ""
                       | _ => toString x
                       end in
             match l' with
             | [] => sx
             | _ :: _ => sx +:+ "," +:+ join l'
             end
         end) items
  end.

(** *** Strings *)

(** [s.endsWith(suffix)]: the suffix is one of the tails of [s]. *)
Fixpoint endsWith (s suffix : string) : bool :=
  String.eqb s suffix
  || match s with
     | EmptyString => false
     | String _ s' => endsWith s' suffix
     end.

(** What [endsWith] decides: [s] is some prefix followed by [suffix]. *)
Definition EndsWith (s suffix : string) : Prop := ∃ p, s = p +:+ suffix.

(** [s.includes(c)] for a one-character needle. *)
Fixpoint includesChar (s : string) (c : ascii) : bool :=
  match s with
  | EmptyString => false
  | String a s' => Ascii.eqb a c || includesChar s' c
  end.

(** [s.startsWith(p)] *)
Definition startsWith (s p : string) : bool := String.prefix p s.

(** [s.slice(n)] for [n] within the string or beyond it. *)
Definition slice (n : nat) (s : string) : string :=
  substring n (String.length s - n) s.

(** WhiteSpace and LineTerminator code units below 256:
    TAB, LF, VT, FF, CR, SP and NBSP. *)
Definition isWhiteSpace (c : ascii) : bool :=
  let n := nat_of_ascii c in
  ((9 <=? n) && (n <=? 13) || (n =? 32) || (n =? 160))%nat.

(** Every character of [s] is white space. *)
Fixpoint allWhiteSpace (s : string) : bool :=
  match s with
  | EmptyString => true
  | String c s' => isWhiteSpace c && allWhiteSpace s'
  end.

Fixpoint trimStart (s : string) : string :=
  match s with
  | EmptyString => EmptyString
  | String c s' => if isWhiteSpace c then trimStart s' else s
  end.

(** Removes trailing white space: a character is kept when it is not
    white space or when something is kept after it. *)
Fixpoint trimEnd (s : string) : string :=
  match s with
  | EmptyString => EmptyString
  | String c s' =>
      match trimEnd s' with
      | EmptyString => if isWhiteSpace c then EmptyString else String c EmptyString
      | t => String c t
      end
  end.

(** [s.trim()] *)
Definition trim (s : string) : string := trimEnd (trimStart s).

(** *** Numbers *)

Definition isDigit (c : ascii) : bool :=
  let n := nat_of_ascii c in ((48 <=? n) && (n <=? 57))%nat.

Definition digitVal (c : ascii) : Z := Z.of_nat (nat_of_ascii c) - 48.

(** The leading decimal digits of [s] read as a number, with the count
    of digits read. *)
Fixpoint readDigits (s : string) (acc : Z) (count : nat) : Z * nat :=
  match s with
  | String c s' =>
      if isDigit c then readDigits s' (10 * acc + digitVal c) (S count)
      else (acc, count)
  | EmptyString => (acc, count)
  end.

(** [parseInt(s, 10)] as a mathematical integer; [None] is NaN.  Leading
    white space is skipped, one sign is read, then the longest run of
    decimal digits; the rest of the string is ignored. *)
Definition parseInt10 (s : string) : option Z :=
  let t := trimStart s in
  let '(sign, body) :=
    match t with
    | String "-" r => (-1, r)
    | String "+" r => (1, r)
    | _ => (1, t)
    end in
  match readDigits body 0 0 with
  | (_, O) => None
  | (n, S _) => Some (sign * n)
  end.

(** The least magnitude that, as a Number, is an infinity: integers from
    [2^1024 - 2^970] on round to [Infinity]. *)
Definition DOUBLE_OVERFLOW : Z := 2 ^ 1024 - 2 ^ 970.

(** [Number.isFinite(n)] of an integer read by [parseInt]. *)
Definition isFinite (n : Z) : bool := Z.abs n <? DOUBLE_OVERFLOW.

(** *** A reference [Date]

    [new Date(v).getTime()] is a parameter of the development.  The
    instance below is the one the examples run on: a number is its own
    time value when within the range of [Date], and a string is read in
    the format [YYYY-MM-DDTHH:mm:ss.sssZ] that every engine accepts (and
    that the provider sends).  [None] is NaN. *)

(** A string of decimal digits only. *)
Definition allDigits (s : string) : option Z :=
  match readDigits s 0 0 with
  | (n, k) => if (Nat.eqb k (String.length s) && negb (Nat.eqb k 0))%bool
              then Some n else None
  end.

(** Days from 1970-01-01 to the civil date [y-m-d]. *)
Definition daysFromCivil (y m d : Z) : Z :=
  let y' := if m <=? 2 then y - 1 else y in
  let era := y' / 400 in
  let yoe := y' - era * 400 in
  let doy := (153 * (if m >? 2 then m - 3 else m + 9) + 2) / 5 + d - 1 in
  let doe := yoe * 365 + yoe / 4 - yoe / 100 + doy in
  era * 146097 + doe - 719468.

Definition daysInMonth (y m : Z) : Z :=
  if m =? 2 then
    if ((y mod 4 =? 0) && negb (y mod 100 =? 0) || (y mod 400 =? 0))%bool
    then 29 else 28
  else if ((m =? 4) || (m =? 6) || (m =? 9) || (m =? 11))%bool then 30
  else 31.

Definition isoTime (s : string) : option Z :=
  if negb (Nat.eqb (String.length s) 24) then None else
  if negb (String.eqb (substring 4 1 s) "-" && String.eqb (substring 7 1 s) "-"
           && String.eqb (substring 10 1 s) "T" && String.eqb (substring 13 1 s) ":"
           && String.eqb (substring 16 1 s) ":" && String.eqb (substring 19 1 s) "."
           && String.eqb (substring 23 1 s) "Z")%bool then None else
  y ← allDigits (substring 0 4 s);
  m ← allDigits (substring 5 2 s);
  d ← allDigits (substring 8 2 s);
  hh ← allDigits (substring 11 2 s);
  mm ← allDigits (substring 14 2 s);
  ss ← allDigits (substring 17 2 s);
  ms ← allDigits (substring 20 3 s);
  if ((1 <=? m) && (m <=? 12) && (1 <=? d) && (d <=? daysInMonth y m)
      && (hh <=? 23) && (mm <=? 59) && (ss <=? 59))%bool
  then Some ((((daysFromCivil y m d * 24 + hh) * 60 + mm) * 60 + ss) * 1000 + ms)
  else None.

Definition referenceDate (v : JsVal) : option Z :=
  match v with
  | JNum n => if Z.abs n <=? 8640000000000000 then Some n else None
  | JStr s => isoTime s
  | _ => None
  end.

End Js.

(** ** Sorting

    [Array.prototype.sort] is stable.  With a comparator that is a
    difference of keys its result is the one stable ordering of the
    input, which insertion from the right computes. *)

Section Sort.
Context {A : Type} (cmp : A → A → Z).

Fixpoint insertBy (x : A) (l : list A) : list A :=
  match l with
  | [] => [x]
  | y :: l' => if cmp x y <=? 0 then x :: l else y :: insertBy x l'
  end.

Definition sortBy (l : list A) : list A := foldr insertBy [] l.
End Sort.

(** ** scripts/fetch-unread.mjs *)

Module FetchUnread.
Import Js.

Definition DEFAULT_MAX_RECENT : Z := 30.
Definition MAX_RECENT_CAP : Z := 1000.
Definition ROOMS_SCAN_LIMIT : Z := 100.
Definition MESSAGES_PAGE_SIZE : Z := 100.
Definition DEFAULT_ACTIVITY_HOURS : Z := 24.
Definition MIN_ACTIVITY_HOURS : Z := 1.
Definition MAX_ACTIVITY_HOURS : Z := 720.

(** [new Set(['direct', 'group'])] with its [has]. *)
Definition ROOM_TYPES : list JsVal := [JStr "direct"; JStr "group"].
Definition ROOM_TYPES_has (v : JsVal) : bool := includes ROOM_TYPES v.

Definition BOT_EMAIL_SUFFIX : string := "@webex.bot".

(** What a listing call resolves to: an array, an object whose [items]
    is an array, or anything else. *)
Inductive Response : Type :=
  | RespArray (items : list JsObj)
  | RespItems (items : list JsObj)
  | RespOther.

Definition extractItems (response : Response) : list JsObj :=
  match response with
  | RespArray items => items
  | RespItems items => items
  | RespOther => []
  end.

(** The object literal [normalizeRoom] returns. *)
Record Room : Type := mkRoom {
  room_id : JsVal;
  room_title : JsVal;
  room_type : JsVal;
  room_lastActivityDate : JsVal;
  room_lastSeenDate : JsVal;
  room_isUnread : bool
}.

(** [{ ...room, unreadMessages, unreadMessageCount, mentionedMe }] *)
Record RoomWithMessages : Type := mkRoomWithMessages {
  room : Room;
  unreadMessages : list JsObj;
  unreadMessageCount : Z;
  mentionedMe : bool
}.

Definition setTitle (r : RoomWithMessages) (t : JsVal) : RoomWithMessages :=
  let b := room r in
  mkRoomWithMessages
    (mkRoom (room_id b) t (room_type b) (room_lastActivityDate b)
            (room_lastSeenDate b) (room_isUnread b))
    (unreadMessages r) (unreadMessageCount r) (mentionedMe r).

Definition isOutputRoom (r : RoomWithMessages) : bool :=
  ROOM_TYPES_has (room_type (room r)).

(** [String(m?.personEmail ?? '')] *)
Definition senderAddress (m : JsObj) : string :=
  toString (coalesce (get m "personEmail") (JStr "")).

(** The test [roomHasNoBotMessages] applies to each unread message. *)
Definition isBotMessage (m : JsObj) : bool :=
  endsWith (senderAddress m) BOT_EMAIL_SUFFIX.

(** The sender of [m] has an address ending in the bot suffix. *)
Definition fromBot (m : JsObj) : Prop := EndsWith (senderAddress m) "@webex.bot".

Definition roomHasNoBotMessages (r : RoomWithMessages) : bool :=
  negb (existsb isBotMessage (unreadMessages r)).

(** [opts] of [parseArgs]; [None] is [null] or [undefined]. *)
Record Opts : Type := mkOpts { hours : option string; maxRooms : option string }.

(** The loop of [parseArgs]: a flag takes the next argument as its
    value, [undefined] when there is none. *)
Fixpoint parseArgsFrom (argv : list string) (opts : Opts) : Opts :=
  match argv with
  | [] => opts
  | arg :: rest =>
      if (String.eqb arg "--hours" || String.eqb arg "-H")%bool then
        match rest with
        | [] => mkOpts None (maxRooms opts)
        | v :: rest' => parseArgsFrom rest' (mkOpts (Some v) (maxRooms opts))
        end
      else if (String.eqb arg "--max-rooms" || String.eqb arg "-n")%bool then
        match rest with
        | [] => mkOpts (hours opts) None
        | v :: rest' => parseArgsFrom rest' (mkOpts (hours opts) (Some v))
        end
      else if startsWith arg "--hours=" then
        parseArgsFrom rest (mkOpts (Some (slice 8 arg)) (maxRooms opts))
      else if startsWith arg "--max-rooms=" then
        parseArgsFrom rest (mkOpts (hours opts) (Some (slice 12 arg)))
      else parseArgsFrom rest opts
  end.

Definition parseArgs (argv : list string) : Opts :=
  parseArgsFrom argv (mkOpts None None).

(** The arguments the loop of [parseArgs] reacts to. *)
Definition isOption (arg : string) : bool :=
  String.eqb arg "--hours" || String.eqb arg "-H"
  || String.eqb arg "--max-rooms" || String.eqb arg "-n"
  || startsWith arg "--hours=" || startsWith arg "--max-rooms=".

(** [cli ?? process.env.X] *)
Definition cliOrEnv (cli env : option string) : option string :=
  match cli with
  | Some v => Some v
  | None => env
  end.

(** In both functions below [parseInt] yielding NaN is the [None]
    branch: NaN is not finite. *)
Definition getMaxRoomsToReturn (cliMaxRooms envMaxRecent : option string) : Z :=
  match cliOrEnv cliMaxRooms envMaxRecent with
  | None => DEFAULT_MAX_RECENT
  | Some raw =>
      if String.eqb raw "" then DEFAULT_MAX_RECENT else
      match parseInt10 raw with
      | None => DEFAULT_MAX_RECENT
      | Some n =>
          if (negb (isFinite n) || (n <? 1))%bool then DEFAULT_MAX_RECENT
          else Z.min n MAX_RECENT_CAP
      end
  end.

Definition getActivityHours (cliHours envActivityHours : option string) : Z :=
  match cliOrEnv cliHours envActivityHours with
  | None => DEFAULT_ACTIVITY_HOURS
  | Some raw =>
      if String.eqb raw "" then DEFAULT_ACTIVITY_HOURS else
      match parseInt10 raw with
      | None => DEFAULT_ACTIVITY_HOURS
      | Some n =>
          if (negb (isFinite n) || (n <? MIN_ACTIVITY_HOURS))%bool
          then DEFAULT_ACTIVITY_HOURS
          else Z.min n MAX_ACTIVITY_HOURS
      end
  end.

(** [s.replace(/:/g, '-')] *)
Fixpoint replaceColons (s : string) : string :=
  match s with
  | EmptyString => EmptyString
  | String c s' => String (if Ascii.eqb c ":" then "-"%char else c) (replaceColons s')
  end.

(** [s.replace(/\.\d{3}/, '')]: the first dot followed by three decimal
    digits goes, with the digits. *)
Fixpoint dropMillis (s : string) : string :=
  match s with
  | EmptyString => EmptyString
  | String c s' =>
      match s' with
      | String d1 (String d2 (String d3 rest)) =>
          if (Ascii.eqb c "." && isDigit d1 && isDigit d2 && isDigit d3)%bool
          then rest
          else String c (dropMillis s')
      | _ => String c (dropMillis s')
      end
  end.

(** [toFileSafeIso(date)], on [iso], the string [date.toISOString()]. *)
Definition toFileSafeIso (iso : string) : string :=
  dropMillis (replaceColons iso).

(** The name of the output file of [main], from the ISO strings of the
    two ends of the window. *)
Definition outputFileName (since to : string) : string :=
  "message-history-" +:+ toFileSafeIso since +:+ "-" +:+ toFileSafeIso to +:+ ".json".

Section WithDate.
(** [new Date(value).getTime()] for a truthy [value]; [None] is NaN. *)
Variable Date_getTime : JsVal → option Z.

Definition toTs (value : JsVal) : Z :=
  if negb (truthy value) then 0
  else match Date_getTime value with
       | Some t => t
       | None => 0
       end.

Definition normalizeRoom (raw : JsObj) : Room :=
  let lastActivityDate :=
    or_else (or_else (get raw "lastActivityDate") (get raw "lastActivity")) JNull in
  let lastSeenDate :=
    or_else (or_else (get raw "lastSeenDate") (get raw "lastSeenActivityDate")) JNull in
  {| room_id := get raw "id";
     room_title := or_else (get raw "title") (get raw "id");
     room_type := or_else (or_else (get raw "type") (get raw "roomType")) (JStr "group");
     room_lastActivityDate := lastActivityDate;
     room_lastSeenDate := lastSeenDate;
     room_isUnread := toTs lastActivityDate >? toTs lastSeenDate |}.

(** [now] is what [Date.now()] returns in the call. *)
Definition inLastXhours (now : Z) (r : Room) (hours : Z) : bool :=
  let ACTIVITY_FROM_MS := hours * 60 * 60 * 1000 in
  let cutoff := now - ACTIVITY_FROM_MS in
  toTs (room_lastActivityDate r) >=? cutoff.

Definition isUnreadMessage (message : JsObj) (lastSeenTs : Z) (meId : JsVal) : bool :=
  let createdTs := toTs (get message "created") in
  if createdTs <=? lastSeenTs then false
  else negb (strictEq (get message "personId") meId).

(** [webex.messages.list]: by room id, a response or a rejection. *)
Variable messages_list : JsVal → option Response.

(** [None] when the listing call rejects. *)
Definition getUnreadMessages (r : Room) (meId : JsVal) : option (list JsObj) :=
  messagesResponse ← messages_list (room_id r);
  let messages := extractItems messagesResponse in
  let lastSeenTs := toTs (room_lastSeenDate r) in
  Some (sortBy (fun a b => toTs (get a "created") - toTs (get b "created"))
          (List.filter (fun message => isUnreadMessage message lastSeenTs meId) messages)).

Definition mentions (meId : JsVal) (m : JsObj) : bool :=
  match get m "mentionedPeople" with
  | JArr people => includes people meId
  | _ => false
  end.

Definition roomMentionsMe (unread : list JsObj) (meId : JsVal) : bool :=
  if negb (truthy meId) then false
  else existsb (mentions meId) unread.

Definition setDirectRoomTitle (r : RoomWithMessages) : RoomWithMessages :=
  if (negb (strictEq (room_type (room r)) (JStr "direct"))
      || Nat.eqb (length (unreadMessages r)) 0)%bool then r
  else
    let email := match last (unreadMessages r) with
                 | Some m => get m "personEmail"
                 | None => JUndefined
                 end in
    if truthy email then setTitle r email else r.

Definition setDirectRoomTitles (rooms : list RoomWithMessages) : list RoomWithMessages :=
  map setDirectRoomTitle rooms.

Definition slimMessage (message : JsObj) : JsObj :=
  let m := delete "updated" (delete "created" (delete "roomType"
             (delete "personId" (delete "roomId" message)))) in
  let m := if negb (nullish (get m "markdown")) then delete "text" m else m in
  if negb (nullish (get m "html")) then delete "text" (delete "markdown" m) else m.

(** The test and the assignment of the inner loop of
    [buildPeopleAndSlimMessages].  A property key is the string of the
    value used as key; the index has no prototype, so it has its own
    properties only. *)
Definition recordPerson (people : JsObj) (message : JsObj) : JsObj :=
  let email := coalesce (get message "personEmail") JNull in
  let pid := get message "personId" in
  if (truthy email && truthy pid
      && strictEq (get people (toString email)) JUndefined)%bool
  then <[toString email := pid]> people
  else people.

(** One turn of the inner loop: the index after the message, and the
    message slimmed. *)
Definition recordAndSlim (people : JsObj) (message : JsObj) : JsObj * JsObj :=
  (recordPerson people message, slimMessage message).

Fixpoint slimMessagesOf (people : JsObj) (messages : list JsObj)
  : JsObj * list JsObj :=
  match messages with
  | [] => (people, [])
  | message :: rest =>
      let '(people', slim) := recordAndSlim people message in
      let '(people'', rest') := slimMessagesOf people' rest in
      (people'', slim :: rest')
  end.

Fixpoint buildPeopleFrom (people : JsObj) (rooms : list RoomWithMessages)
  : JsObj * list RoomWithMessages :=
  match rooms with
  | [] => (people, [])
  | r :: rest =>
      let '(people', msgs) := slimMessagesOf people (unreadMessages r) in
      let r' := mkRoomWithMessages (room r) msgs (unreadMessageCount r) (mentionedMe r) in
      let '(people'', rest') := buildPeopleFrom people' rest in
      (people'', r' :: rest')
  end.

(** Returns the people index, and the rooms as the in-place slimming
    leaves them. *)
Definition buildPeopleAndSlimMessages (roomsWithMessages : list RoomWithMessages)
  : JsObj * list RoomWithMessages :=
  buildPeopleFrom ∅ roomsWithMessages.

(** *** What the index records

    The vocabulary in which the entries of the people index are stated:
    the order of visit, the messages an entry can come from, and the
    first of them under a key. *)

(** The messages of the rooms in the order the loops visit them. *)
Definition messagesInOrder (roomsWithMessages : list RoomWithMessages) : list JsObj :=
  flat_map unreadMessages roomsWithMessages.

(** [message] has a truthy email that reads [k] as a key, and a truthy
    person id: the messages the index can take an entry from. *)
Definition recordsUnder (k : string) (message : JsObj) : Prop :=
  truthy (get message "personEmail") = true
  ∧ truthy (get message "personId") = true
  ∧ toString (get message "personEmail") = k.

(** Every value of the index is truthy, so that reading [undefined]
    under a key means the key is absent. *)
Definition allTruthy (people : JsObj) : Prop :=
  ∀ k v, people !! k = Some v → truthy v = true.

(** [recordsUnder] as a test. *)
Definition recordsUnderb (k : string) (m : JsObj) : bool :=
  truthy (get m "personEmail") && truthy (get m "personId")
  && String.eqb (toString (get m "personEmail")) k.

(** The person id of the first message recorded under [k]. *)
Fixpoint firstRecorded (k : string) (messages : list JsObj) : option JsVal :=
  match messages with
  | [] => None
  | m :: rest => if recordsUnderb k m then Some (get m "personId")
                 else firstRecorded k rest
  end.

(** *** Attaching the unread messages

    [Promise.all] over [unreadRooms.map]: one entry per room, in the
    order of the rooms, each from the room's own listing. *)

Definition attachOne (meId : JsVal) (r : Room) : RoomWithMessages :=
  match getUnreadMessages r meId with
  | Some unread =>
      mkRoomWithMessages r unread (Z.of_nat (length unread)) (roomMentionsMe unread meId)
  | None => mkRoomWithMessages r [] 0 false
  end.

Definition attachUnreadMessages (unreadRooms : list Room) (meId : JsVal)
  : list RoomWithMessages :=
  map (attachOne meId) unreadRooms.

(** *** The stages of [main] *)

(** [Date.now()] is read anew for each room the filter tests; the test
    of a room depends on its own reading only, and [now] stands for
    it. *)
Definition normalized (now : Z) (activityHours : Z) (rooms : list JsObj) : list Room :=
  sortBy (fun a b => toTs (room_lastActivityDate b) - toTs (room_lastActivityDate a))
    (List.filter (fun r => inLastXhours now r activityHours)
       (List.filter (fun r => ROOM_TYPES_has (room_type r))
          (map normalizeRoom rooms))).

(** The two filters of [roomsFiltered], before the cut. *)
Definition botNoiseFilter (unreadWithMessages : list RoomWithMessages)
  : list RoomWithMessages :=
  List.filter roomHasNoBotMessages (List.filter isOutputRoom unreadWithMessages).

Definition roomsFiltered (unreadWithMessages : list RoomWithMessages)
    (maxRoomsToReturn : Z) : list RoomWithMessages :=
  take (Z.to_nat maxRoomsToReturn) (botNoiseFilter unreadWithMessages).

Record Stats : Type := mkStats { total : Z; unread : Z; read : Z }.

Record Payload : Type := mkPayload {
  rooms : list RoomWithMessages;
  people : JsObj;
  stats : Stats
}.

(** [main] from the listing of the rooms to the payload it writes. *)
Definition mainPayload (now : Z) (argv : list string)
    (envMaxRecent envActivityHours : option string)
    (roomsResponse : Response) (me : option JsObj) : Payload :=
  let cli := parseArgs argv in
  let activityHours := getActivityHours (hours cli) envActivityHours in
  let maxRoomsToReturn := getMaxRoomsToReturn (maxRooms cli) envMaxRecent in
  let meId := match me with Some o => get o "id" | None => JUndefined end in
  let norm := normalized now activityHours (extractItems roomsResponse) in
  let unreadRooms := List.filter room_isUnread norm in
  let unreadWithMessages := attachUnreadMessages unreadRooms meId in
  let filtered := roomsFiltered unreadWithMessages maxRoomsToReturn in
  let titled := setDirectRoomTitles filtered in
  let '(people, slimmed) := buildPeopleAndSlimMessages titled in
  {| rooms := slimmed;
     people := people;
     stats := {| total := Z.of_nat (length norm);
                 unread := Z.of_nat (length filtered);
                 read := Z.of_nat (length norm) - Z.of_nat (length unreadRooms) |} |}.

End WithDate.

End FetchUnread.

(** ** scripts/fetch-unread.mjs, the script that reports counts

    The first script of the file lists the unread rooms of the last 24
    hours with the number of their unread messages, and no message
    bodies. *)

Module Legacy.
Import Js FetchUnread.

Definition ACTIVITY_FROM_MS : Z := 24 * 60 * 60 * 1000.


(** [{ ...room, unreadMessageCount }] *)
Record RoomWithCount : Type := mkRoomWithCount {
  room : Room;
  unreadMessageCount : Z
}.

Record Stats : Type := mkStats { total : Z; unread : Z; read : Z }.


Section WithDate.
Variable Date_getTime : JsVal → option Z.
Variable messages_list : JsVal → option Response.

Definition inLast24h (now : Z) (r : Room) : bool :=
  let cutoff := now - ACTIVITY_FROM_MS in
  toTs Date_getTime (room_lastActivityDate r) >=? cutoff.

(** [None] when the listing call rejects. *)
Definition getUnreadMessageCount (r : Room) (meId : JsVal) : option Z :=
  messagesResponse ← messages_list (room_id r);
  let messages := extractItems messagesResponse in
  let lastSeenTs := toTs Date_getTime (room_lastSeenDate r) in
  Some (Z.of_nat (length
    (List.filter
       (fun message =>
          let createdTs := toTs Date_getTime (get message "created") in
          if createdTs <=? lastSeenTs then false
          else negb (strictEq (get message "personId") meId))
       messages))).

Definition attachUnreadMessageCounts (unreadRooms : list Room) (meId : JsVal)
  : list RoomWithCount :=
  map (fun r => match getUnreadMessageCount r meId with
                | Some unreadMessageCount => mkRoomWithCount r unreadMessageCount
                | None => mkRoomWithCount r 0
                end) unreadRooms.

Definition normalized (now : Z) (rooms : list JsObj) : list Room :=
  sortBy (fun a b => toTs Date_getTime (room_lastActivityDate b)
                     - toTs Date_getTime (room_lastActivityDate a))
    (List.filter (inLast24h now)
       (List.filter (fun r => ROOM_TYPES_has (room_type r))
          (map (normalizeRoom Date_getTime) rooms))).

(** [webex.rooms.listWithReadStatus]: by the number of rooms asked
    for, a response or a rejection. *)
Variable rooms_listWithReadStatus : Z → option Response.


End WithDate.
End Legacy.

(** ** scripts/send-message.mjs *)

Module SendMessage.
Import Js.

Definition isEmail (value : JsVal) : bool :=
  match value with
  | JStr s => includesChar s "@"
  | _ => false
  end.

(** [process.env] as the script reads it. *)
Record Env : Type := mkEnv {
  WEBEX_ACCESS_TOKEN : option string;
  WEBEX_TO : option string;
  WEBEX_MESSAGE : option string
}.

(** [sendMessageProgram.opts()] *)
Record SendOpts : Type := mkSendOpts {
  opt_to : option string;
  opt_message : option string
}.

(** What [sendMessageProgram.parse(process.argv)] comes to.  The option
    parser is the library's: it either fills the options, or writes a
    text of its own (the help, or the error for an unknown option or a
    missing option argument) and ends the process with its code. *)
Inductive ParseOutcome : Type :=
  | Parsed (opts : SendOpts)
  | ParseExit (code : Z).

(** What a run does, in order.  [OutError] and [OutOk] are the result
    lines printed by [out]; [ParserWrites] is the text of the option
    parser. *)
Inductive Event : Type :=
  | OutError (error : string)
  | OutOk (id roomId created : JsVal)
  | ParserWrites
  | MessagesCreate (payload : JsObj)
  | Exit (code : Z).

(** [a ?? b ?? ''] *)
Definition firstOf (a b : option string) : string :=
  match a with
  | Some v => v
  | None => match b with
            | Some v => v
            | None => ""
            end
  end.

(** [readStdin], on the lines the reader yields. *)
Definition readStdin (lines : list string) : string :=
  trim (String.concat (String (ascii_of_nat 10) EmptyString) lines).

Section WithClient.
(** [initWebex]: the message of the error when it rejects. *)
Variable initWebex : string → option string.
(** [webex.messages.create]: the created message, or the message of
    the error. *)
Variable messages_create : JsObj → JsObj + string.

(** [parsed] is what parsing the command line comes to; the credential
    is tested before the command line is parsed. *)
Definition main (env : Env) (parsed : ParseOutcome) : list Event :=
  match WEBEX_ACCESS_TOKEN env with
  | None => [OutError "WEBEX_ACCESS_TOKEN required"; Exit 1]
  | Some token =>
      if String.eqb (trim token) "" then
        [OutError "WEBEX_ACCESS_TOKEN required"; Exit 1]
      else
      match parsed with
      | ParseExit code => [ParserWrites; Exit code]
      | Parsed opts =>
          let to := trim (firstOf (opt_to opts) (WEBEX_TO env)) in
          if String.eqb to "" then
            [OutError "--to / -t or WEBEX_TO required (room ID or person email)";
             Exit 1]
          else
          let markdown := trim (firstOf (opt_message opts) (WEBEX_MESSAGE env)) in
          if String.eqb markdown "" then
            [OutError "--message / -m, WEBEX_MESSAGE, or stdin required"; Exit 1]
          else
          match initWebex token with
          | Some msg => [OutError msg; Exit 1]
          | None =>
              let payload : JsObj :=
                if isEmail (JStr to)
                then {[ "toPersonEmail" := JStr to; "markdown" := JStr markdown ]}
                else {[ "roomId" := JStr to; "markdown" := JStr markdown ]} in
              match messages_create payload with
              | inl message =>
                  [MessagesCreate payload;
                   OutOk (get message "id") (get message "roomId")
                     (get message "created");
                   Exit 0]
              | inr msg => [MessagesCreate payload; OutError msg; Exit 1]
              end
          end
      end
  end.

(** The payloads submitted in a run. *)
Definition created (trace : list Event) : list JsObj :=
  omap (fun e => match e with MessagesCreate p => Some p | _ => None end) trace.

(** [main] of the script that also takes the body from piped input:
    [isTTY] is [process.stdin.isTTY], [stdin] the lines piped in. *)
Definition mainWithStdin (env : Env) (parsed : ParseOutcome)
    (isTTY : bool) (stdin : list string) : list Event :=
  match WEBEX_ACCESS_TOKEN env with
  | None => [OutError "WEBEX_ACCESS_TOKEN required"; Exit 1]
  | Some token =>
      if String.eqb (trim token) "" then
        [OutError "WEBEX_ACCESS_TOKEN required"; Exit 1]
      else
      match parsed with
      | ParseExit code => [ParserWrites; Exit code]
      | Parsed opts =>
          let to := trim (firstOf (opt_to opts) (WEBEX_TO env)) in
          if String.eqb to "" then
            [OutError "--to / -t or WEBEX_TO required (room ID or person email)";
             Exit 1]
          else
          let markdown := trim (firstOf (opt_message opts) (WEBEX_MESSAGE env)) in
          let markdown :=
            if (String.eqb markdown "" && negb isTTY)%bool then readStdin stdin
            else markdown in
          if String.eqb markdown "" then
            [OutError "--message / -m, WEBEX_MESSAGE, or stdin required"; Exit 1]
          else
          match initWebex token with
          | Some msg => [OutError msg; Exit 1]
          | None =>
              let payload : JsObj :=
                if isEmail (JStr to)
                then {[ "toPersonEmail" := JStr to; "markdown" := JStr markdown ]}
                else {[ "roomId" := JStr to; "markdown" := JStr markdown ]} in
              match messages_create payload with
              | inl message =>
                  [MessagesCreate payload;
                   OutOk (get message "id") (get message "roomId")
                     (get message "created");
                   Exit 0]
              | inr msg => [MessagesCreate payload; OutError msg; Exit 1]
              end
          end
      end
  end.
End WithClient.



End SendMessage.

(** ** Sample data *)

Module Samples.
Import Js FetchUnread SendMessage.

(** 2026-02-15T12:00:00.000Z *)
Definition noon : Z := 1771156800000.

Definition botMessage : JsObj :=
  {[ "id" := JStr "m1"; "roomId" := JStr "R1"; "personId" := JStr "B1";
     "personEmail" := JStr "helper@webex.bot";
     "created" := JStr "2026-02-15T10:00:00.000Z"; "text" := JStr "build passed" ]}.

Definition humanMessage : JsObj :=
  {[ "id" := JStr "m2"; "roomId" := JStr "R1"; "personId" := JStr "P2";
     "personEmail" := JStr "ana@example.com";
     "created" := JStr "2026-02-15T11:00:00.000Z"; "text" := JStr "thanks";
     "markdown" := JStr "**thanks**"; "mentionedPeople" := JArr [JStr "ME"] ]}.

Definition groupRoom : Room :=
  {| room_id := JStr "R1"; room_title := JStr "Builds"; room_type := JStr "group";
     room_lastActivityDate := JStr "2026-02-15T11:00:00.000Z";
     room_lastSeenDate := JStr "2026-02-15T09:00:00.000Z";
     room_isUnread := true |}.

(** A group room with one unread message from a bot and one from a
    person. *)
Definition mixedRoom : RoomWithMessages :=
  {| room := groupRoom; unreadMessages := [botMessage; humanMessage];
     unreadMessageCount := 2; mentionedMe := true |}.

(** A room whose last activity is stamped five seconds after [noon]. *)
Definition aheadRoom : JsObj :=
  {[ "id" := JStr "R2"; "title" := JStr "Ops"; "type" := JStr "group";
     "lastActivityDate" := JStr "2026-02-15T12:00:05.000Z";
     "lastSeenDate" := JStr "2026-02-15T09:00:00.000Z" ]}.

(** A room without dates. *)
Definition undatedRoom : JsObj :=
  {[ "id" := JStr "R3"; "title" := JStr "Old"; "type" := JStr "direct" ]}.

(** A message that carries an email and no person id. *)
Definition anonymousMessage : JsObj :=
  {[ "id" := JStr "m3"; "personEmail" := JStr "ana@example.com";
     "created" := JStr "2026-02-15T10:30:00.000Z"; "text" := JStr "hello" ]}.

Definition directRoom : Room :=
  {| room_id := JStr "R4"; room_title := JStr "Ana"; room_type := JStr "direct";
     room_lastActivityDate := JStr "2026-02-15T11:00:00.000Z";
     room_lastSeenDate := JStr "2026-02-15T09:00:00.000Z";
     room_isUnread := true |}.

(** A direct room whose first unread message has no person id. *)
Definition anaRoom : RoomWithMessages :=
  {| room := directRoom; unreadMessages := [anonymousMessage; humanMessage];
     unreadMessageCount := 2; mentionedMe := true |}.

(** A message of the current user, and one from before the room was
    last seen. *)
Definition ownMessage : JsObj :=
  {[ "id" := JStr "m4"; "roomId" := JStr "R1"; "personId" := JStr "ME";
     "personEmail" := JStr "me@example.com";
     "created" := JStr "2026-02-15T10:45:00.000Z"; "text" := JStr "on it" ]}.

Definition seenMessage : JsObj :=
  {[ "id" := JStr "m0"; "roomId" := JStr "R1"; "personId" := JStr "P2";
     "personEmail" := JStr "ana@example.com";
     "created" := JStr "2026-02-15T08:00:00.000Z"; "text" := JStr "morning" ]}.

(** A provider that lists the messages of room R1, newest first, and
    fails for every other room. *)
Definition listing (roomId : JsVal) : option Response :=
  if strictEq roomId (JStr "R1")
  then Some (RespItems [humanMessage; ownMessage; botMessage; seenMessage])
  else None.

(** The first scenario of the specification: a direct room active at
    [noon] and last seen two hours before, with one message an hour
    before [noon] that mentions the current user; next to it a group
    room whose three unread messages come from a bot. *)
Definition rawDirect : JsObj :=
  {[ "id" := JStr "RA"; "title" := JStr "Ana A"; "type" := JStr "direct";
     "lastActivityDate" := JStr "2026-02-15T12:00:00.000Z";
     "lastSeenDate" := JStr "2026-02-15T10:00:00.000Z" ]}.

Definition rawGroup : JsObj :=
  {[ "id" := JStr "RB"; "title" := JStr "Alerts"; "type" := JStr "group";
     "lastActivityDate" := JStr "2026-02-15T11:30:00.000Z";
     "lastSeenDate" := JStr "2026-02-15T08:00:00.000Z" ]}.

Definition mention : JsObj :=
  {[ "id" := JStr "a1"; "roomId" := JStr "RA"; "personId" := JStr "P2";
     "personEmail" := JStr "ana@example.com";
     "created" := JStr "2026-02-15T11:00:00.000Z";
     "text" := JStr "ping"; "html" := JStr "<p>ping</p>";
     "mentionedPeople" := JArr [JStr "ME"] ]}.

Definition alert (id created : string) : JsObj :=
  {[ "id" := JStr id; "roomId" := JStr "RB"; "personId" := JStr "B1";
     "personEmail" := JStr "automation@webex.bot";
     "created" := JStr created; "text" := JStr "alert" ]}.

Definition scenarioListing (roomId : JsVal) : option Response :=
  if strictEq roomId (JStr "RA") then Some (RespItems [mention])
  else if strictEq roomId (JStr "RB") then
    Some (RespArray [alert "b3" "2026-02-15T11:30:00.000Z";
                     alert "b2" "2026-02-15T11:00:00.000Z";
                     alert "b1" "2026-02-15T10:00:00.000Z"])
  else None.

Definition me : JsObj := {[ "id" := JStr "ME"; "displayName" := JStr "Me" ]}.

(** A room visited two hours after its last activity, under the older
    names of the two dates. *)
Definition rawVisited : JsObj :=
  {[ "id" := JStr "RC"; "title" := JStr "Quiet"; "type" := JStr "group";
     "lastActivity" := JStr "2026-02-15T10:00:00.000Z";
     "lastSeenActivityDate" := JStr "2026-02-15T12:00:00.000Z" ]}.


Definition rawRoom : JsObj :=
  {[ "id" := JStr "R1"; "title" := JStr ""; "type" := JStr "";
     "lastActivity" := JStr "2026-02-15T11:00:00.000Z";
     "lastSeenDate" := JStr "not a date";
     "isUnread" := JBool false ]}.

End Samples.

(** * Properties *)

(** ** Strings and values *)

Section JsFacts.
Import Js.

(** [endsWith] decides that a string is some prefix followed by the
    suffix. *)
Lemma endsWith_spec (s suffix : string) :
  endsWith s suffix = true ↔ EndsWith s suffix.
Proof.
  unfold EndsWith. induction s as [|c s IH]; cbn [endsWith].
  - rewrite orb_false_r, String.eqb_eq. split.
    + intros <-. by exists "".
    + intros [p Hp]. destruct p; simpl in Hp; [done | discriminate].
  - rewrite orb_true_iff, String.eqb_eq, IH. split.
    + intros [<- | [p ->]]; [by exists "" | by exists (String c p)].
    + intros [[|c' p] Hp]; simpl in Hp; [by left |].
      right. injection Hp as -> ->. by exists p.
Qed.

Lemma strictEq_str (v : JsVal) (s : string) :
  strictEq v (JStr s) = true ↔ v = JStr s.
Proof.
  destruct v; simpl; try (split; [discriminate | congruence]).
  rewrite String.eqb_eq. split; congruence.
Qed.

Lemma strictEq_str_l (v : JsVal) (s : string) :
  strictEq (JStr s) v = true ↔ v = JStr s.
Proof.
  destruct v; cbn [strictEq]; try (split; [discriminate | congruence]).
  rewrite String.eqb_eq. split; congruence.
Qed.

Lemma get_insert_ne (o : JsObj) (k k' : string) (v : JsVal) :
  k ≠ k' → get (<[k := v]> o) k' = get o k'.
Proof. intros. unfold get. by rewrite lookup_insert_ne. Qed.

Lemma get_absent (o : JsObj) (k : string) : o !! k = None → get o k = JUndefined.
Proof. unfold get. by intros ->. Qed.
End JsFacts.

(** ** The sort: a sorted, stable permutation *)

Section SortPerm.
Context {A : Type} (cmp : A → A → Z).

Lemma insertBy_perm (x : A) (l : list A) :
  Permutation (insertBy cmp x l) (x :: l).
Proof.
  induction l as [|y l IH]; simpl; [done |].
  destruct (cmp x y <=? 0); [done |].
  rewrite IH. apply perm_swap.
Qed.

Lemma sortBy_perm (l : list A) : Permutation (sortBy cmp l) l.
Proof.
  induction l as [|x l IH]; simpl; [done |].
  rewrite insertBy_perm. by constructor.
Qed.

Lemma sortBy_In (l : list A) (x : A) : In x (sortBy cmp l) ↔ In x l.
Proof.
  split; apply Permutation_in; [| symmetry]; apply sortBy_perm.
Qed.
End SortPerm.

Section SortSorted.
Context {A : Type} (cmp : A → A → Z) (R : A → A → Prop).
Hypothesis cmp_le : ∀ a b, cmp a b ≤ 0 → R a b.
Hypothesis cmp_gt : ∀ a b, 0 < cmp a b → R b a.
Hypothesis R_trans : ∀ a b c, R a b → R b c → R a c.

Lemma insertBy_sorted (x : A) (l : list A) :
  StronglySorted R l → StronglySorted R (insertBy cmp x l).
Proof.
  induction 1 as [|y l Hl IH Hy]; simpl.
  - repeat constructor.
  - destruct (Z.leb_spec (cmp x y) 0) as [Hxy | Hxy].
    + constructor; [by constructor |].
      constructor; [by apply cmp_le |].
      eapply Forall_impl; [exact Hy |]. simpl. intros z Hz.
      apply (R_trans x y z); [by apply cmp_le | done].
    + constructor; [done |].
      rewrite insertBy_perm. constructor; [by apply cmp_gt | done].
Qed.

Lemma sortBy_sorted (l : list A) : StronglySorted R (sortBy cmp l).
Proof.
  induction l as [|x l IH]; simpl; [constructor |].
  by apply insertBy_sorted.
Qed.
End SortSorted.

(** The sort is stable: elements with the same key keep the order they
    had in the input. *)
Section SortStable.
Context {A : Type} (key : A → Z).

Local Abbreviation byKey := (fun a b : A => key a - key b).

Lemma insertBy_filter_key (c : Z) (x : A) (l : list A) :
  List.filter (fun a => key a =? c) (insertBy byKey x l)
  = List.filter (fun a => key a =? c) (x :: l).
Proof.
  induction l as [|y l IH]; [done |]. cbn [insertBy].
  destruct (Z.leb_spec (key x - key y) 0) as [Hle | Hgt]; [done |].
  cbn [List.filter] in *. rewrite IH.
  destruct (Z.eqb_spec (key x) c), (Z.eqb_spec (key y) c); try done. lia.
Qed.

Lemma sortBy_stable (c : Z) (l : list A) :
  List.filter (fun a => key a =? c) (sortBy byKey l)
  = List.filter (fun a => key a =? c) l.
Proof.
  induction l as [|x l IH]; [done |]. cbn [sortBy foldr].
  rewrite insertBy_filter_key. cbn [List.filter].
  unfold sortBy in IH. by rewrite IH.
Qed.
End SortStable.

Import Js FetchUnread SendMessage.

(** ** The room normalizer *)

Section Normalizer.
Variable Date_getTime : JsVal → option Z.

Local Abbreviation toTs := (toTs Date_getTime).
Local Abbreviation normalizeRoom := (normalizeRoom Date_getTime).



Lemma toTs_or_null (v : JsVal) : toTs (or_else v JNull) = toTs v.
Proof.
  unfold or_else. destruct (truthy v) eqn:Hv; [done |].
  unfold FetchUnread.toTs. by rewrite Hv.
Qed.

(** C2: the unread flag of a normalized room is the comparison of the
    timestamps of its two dates, which are those of the raw record
    under either of their names.  The timestamp of a date that [Date]
    reads is its time value, and that of a missing, null or unparseable
    date is 0: with both dates readable the room is unread exactly when
    the activity is later than the last visit, and without a readable
    last-seen date exactly when the activity is after the epoch.  A
    flag the provider supplies plays no part. *)
Theorem normalizeRoom_isUnread (raw : JsObj) :
  let r := normalizeRoom raw in
  let activity := or_else (get raw "lastActivityDate") (get raw "lastActivity") in
  let seen := or_else (get raw "lastSeenDate") (get raw "lastSeenActivityDate") in
  room_isUnread r
    = (toTs (room_lastActivityDate r) >? toTs (room_lastSeenDate r))
  ∧ room_isUnread r = (toTs activity >? toTs seen)
  ∧ (∀ v t, truthy v = true → Date_getTime v = Some t → toTs v = t)
  ∧ (∀ ta ts, truthy activity = true → Date_getTime activity = Some ta →
              truthy seen = true → Date_getTime seen = Some ts →
              room_isUnread r = (ta >? ts))
  ∧ (∀ ta, truthy activity = true → Date_getTime activity = Some ta →
           truthy seen = false → room_isUnread r = (ta >? 0))
  ∧ (∀ ta, truthy activity = true → Date_getTime activity = Some ta →
           Date_getTime seen = None → room_isUnread r = (ta >? 0))
  ∧ (∀ v, truthy v = false → toTs v = 0)
  ∧ toTs JUndefined = 0 ∧ toTs JNull = 0
  ∧ (∀ v, Date_getTime v = None → toTs v = 0)
  ∧ (raw !! "lastSeenDate" = None → raw !! "lastSeenActivityDate" = None →
     toTs (room_lastSeenDate r) = 0)
  ∧ (raw !! "lastActivityDate" = None → raw !! "lastActivity" = None →
     toTs (room_lastActivityDate r) = 0)
  ∧ (∀ v, normalizeRoom (<["isUnread" := v]> raw) = r).
Proof.
  cbn zeta.
  assert (∀ v t, truthy v = true → Date_getTime v = Some t → toTs v = t) as Hread.
  { intros v t Hv Ht. unfold FetchUnread.toTs. by rewrite Hv, Ht. }
  assert (∀ v, truthy v = false → toTs v = 0) as Hfalsy.
  { intros v Hv. unfold FetchUnread.toTs. by rewrite Hv. }
  assert (∀ v, Date_getTime v = None → toTs v = 0) as Hbad.
  { intros v Hv. unfold FetchUnread.toTs. rewrite Hv. by destruct (truthy v). }
  assert (room_isUnread (normalizeRoom raw)
          = (toTs (or_else (get raw "lastActivityDate") (get raw "lastActivity"))
             >? toTs (or_else (get raw "lastSeenDate")
                        (get raw "lastSeenActivityDate")))) as Hraw.
  { cbn. by rewrite !toTs_or_null. }
  split_and!; try done.
  - intros ta ts Ha Hta Hs Hts.
    by rewrite Hraw, (Hread _ _ Ha Hta), (Hread _ _ Hs Hts).
  - intros ta Ha Hta Hs. by rewrite Hraw, (Hread _ _ Ha Hta), (Hfalsy _ Hs).
  - intros ta Ha Hta Hs. by rewrite Hraw, (Hread _ _ Ha Hta), (Hbad _ Hs).
  - intros H1 H2. cbn. by rewrite !get_absent.
  - intros H1 H2. cbn. by rewrite !get_absent.
  - intros v. unfold FetchUnread.normalizeRoom. by rewrite !get_insert_ne.
Qed.

End Normalizer.

(** ** The bot filter *)

Section BotFilter.

Lemma ROOM_TYPES_has_spec (v : JsVal) :
  ROOM_TYPES_has v = true ↔ v = JStr "direct" ∨ v = JStr "group".
Proof.
  unfold ROOM_TYPES_has, includes, ROOM_TYPES, sameValueZero. cbn [existsb].
  by rewrite orb_false_r, orb_true_iff, !strictEq_str_l.
Qed.

Lemma isBotMessage_spec (m : JsObj) : isBotMessage m = true ↔ fromBot m.
Proof. unfold isBotMessage, fromBot. apply endsWith_spec. Qed.

Lemma roomHasNoBotMessages_spec (r : RoomWithMessages) :
  roomHasNoBotMessages r = true ↔ ∀ m, In m (unreadMessages r) → ¬ fromBot m.
Proof.
  unfold roomHasNoBotMessages. rewrite negb_true_iff. split.
  - intros Hex m Hm Hbot. apply isBotMessage_spec in Hbot.
    assert (existsb isBotMessage (unreadMessages r) = true) as Habs
      by (apply existsb_exists; eauto).
    congruence.
  - intros Hall. apply not_true_is_false. intros Hex.
    apply existsb_exists in Hex as (m & Hm & Hbot).
    apply (Hall m Hm). by apply isBotMessage_spec.
Qed.

Lemma botNoiseFilter_In (l : list RoomWithMessages) (r : RoomWithMessages) :
  In r (botNoiseFilter l)
  ↔ In r l ∧ isOutputRoom r = true ∧ roomHasNoBotMessages r = true.
Proof. unfold botNoiseFilter. rewrite !filter_In. tauto. Qed.

(** C1, as the code has it: a room that reaches the bot filter is
    dropped exactly when its type is neither direct nor group or SOME
    unread message of it comes from an address ending in [@webex.bot];
    so a room of an allowed type is kept exactly when none of its
    unread messages comes from a bot, a room without unread messages
    included. *)
Theorem botNoiseFilter_drops (l : list RoomWithMessages) (r : RoomWithMessages) :
  In r l →
  (¬ In r (botNoiseFilter l)
   ↔ (room_type (room r) ≠ JStr "direct" ∧ room_type (room r) ≠ JStr "group")
     ∨ ∃ m, In m (unreadMessages r) ∧ fromBot m)
  ∧ (unreadMessages r = [] →
     room_type (room r) = JStr "direct" ∨ room_type (room r) = JStr "group" →
     In r (botNoiseFilter l)).
Proof.
  intros Hr. rewrite botNoiseFilter_In. split.
  - unfold isOutputRoom. split.
    + intros Hnot.
      destruct (ROOM_TYPES_has (room_type (room r))) eqn:Ht.
      * right. destruct (roomHasNoBotMessages r) eqn:Hb; [tauto |].
        unfold roomHasNoBotMessages in Hb. apply negb_false_iff in Hb.
        apply existsb_exists in Hb as (m & Hm & Hbot).
        exists m. split; [done |]. by apply isBotMessage_spec.
      * left. split; intros Heq;
          assert (ROOM_TYPES_has (room_type (room r)) = true)
            by (apply ROOM_TYPES_has_spec; tauto); congruence.
    + intros [[Hd Hg] | (m & Hm & Hbot)] (_ & Ht & Hb).
      * apply ROOM_TYPES_has_spec in Ht. tauto.
      * rewrite roomHasNoBotMessages_spec in Hb. by apply (Hb m).
  - intros Hnil Ht. split; [done |]. split.
    + by apply ROOM_TYPES_has_spec.
    + unfold roomHasNoBotMessages. by rewrite Hnil.
Qed.

Lemma botNoiseFilter_drops_witness :
  ¬ In Samples.mixedRoom (botNoiseFilter [Samples.mixedRoom]).
Proof.
  apply (botNoiseFilter_drops [Samples.mixedRoom] Samples.mixedRoom).
  - simpl. by left.
  - right. exists Samples.botMessage. split.
    + simpl. by left.
    + by exists "helper".
Defined.

(** C1 as worded fails on a group room with one unread message from a
    bot and one from a person: the filter drops it, though its type is
    allowed and not every unread message comes from a bot. *)
Lemma botNoiseFilter_every_counterexample :
  let r := Samples.mixedRoom in
  ¬ (¬ In r (botNoiseFilter [r])
     ↔ (room_type (room r) ≠ JStr "direct" ∧ room_type (room r) ≠ JStr "group")
       ∨ ∀ m, In m (unreadMessages r) → fromBot m).
Proof.
  cbn zeta. intros [Hdrop _].
  destruct Hdrop as [[_ Hg] | Hall].
  - vm_compute. tauto.
  - by apply Hg.
  - assert (fromBot Samples.humanMessage) as Hbot
      by (apply Hall; simpl; tauto).
    apply isBotMessage_spec in Hbot. vm_compute in Hbot. discriminate.
Qed.
End BotFilter.

(** ** The activity filter *)

Section ActivityFilter.
Variable Date_getTime : JsVal → option Z.

Local Abbreviation toTs := (toTs Date_getTime).
Local Abbreviation normalizeRoom := (normalizeRoom Date_getTime).
Local Abbreviation normalized := (normalized Date_getTime).

Lemma normalized_In (now activityHours : Z) (raws : list JsObj) (r : Room) :
  In r (normalized now activityHours raws)
  ↔ In r (map normalizeRoom raws)
    ∧ (room_type r = JStr "direct" ∨ room_type r = JStr "group")
    ∧ now - activityHours * 3600000 ≤ toTs (room_lastActivityDate r).
Proof.
  unfold FetchUnread.normalized. rewrite sortBy_In, !filter_In.
  rewrite ROOM_TYPES_has_spec. unfold inLastXhours.
  rewrite Z.geb_le.
  split; [intros [[? ?] ?] | intros (? & ? & ?)]; split_and!; try done; lia.
Qed.

(** C5, as the code has it: the activity filter keeps a normalized room
    exactly when its type is direct or group and the timestamp of its
    last activity is not before [now - window]; there is no upper
    bound.  A room whose timestamp is 0 is dropped, whatever its
    unread flag, by every positive window that starts after the
    epoch. *)
Theorem normalized_retains (now activityHours : Z) (raws : list JsObj) (r : Room) :
  (In r (normalized now activityHours raws)
   ↔ In r (map normalizeRoom raws)
     ∧ (room_type r = JStr "direct" ∨ room_type r = JStr "group")
     ∧ now - activityHours * 3600000 ≤ toTs (room_lastActivityDate r))
  ∧ (toTs (room_lastActivityDate r) = 0 → 0 < activityHours →
     activityHours * 3600000 < now →
     ¬ In r (normalized now activityHours raws)).
Proof.
  split; [apply normalized_In |].
  intros Hzero Hpos Hnow Hr. destruct (proj1 (normalized_In _ _ _ _) Hr) as (_ & _ & Hcut).
  lia.
Qed.

End ActivityFilter.

Lemma normalized_retains_witness :
  ¬ In (normalizeRoom referenceDate Samples.undatedRoom)
       (normalized referenceDate Samples.noon 24 [Samples.undatedRoom]).
Proof.
  apply (normalized_retains referenceDate Samples.noon 24 [Samples.undatedRoom]).
  - reflexivity.
  - lia.
  - unfold Samples.noon. lia.
Defined.

(** C5 as worded fails on a room whose last activity is stamped five
    seconds after the clock reading: it is outside [now - window, now]
    and the filter keeps it. *)
Lemma normalized_closed_interval_counterexample :
  let now := Samples.noon in
  let r := normalizeRoom referenceDate Samples.aheadRoom in
  ¬ (In r (normalized referenceDate now 24 [Samples.aheadRoom])
     ↔ (room_type r = JStr "direct" ∨ room_type r = JStr "group")
       ∧ now - 24 * 3600000 ≤ toTs referenceDate (room_lastActivityDate r) ≤ now).
Proof.
  cbn zeta. intros [Hkept _].
  assert (toTs referenceDate
            (room_lastActivityDate (normalizeRoom referenceDate Samples.aheadRoom))
          = Samples.noon + 5000) as Hts by (vm_compute; reflexivity).
  rewrite Hts in Hkept.
  destruct Hkept as (_ & _ & Hle); [| lia].
  vm_compute. by left.
Qed.

(** ** The unread message resolver *)

Section Resolver.
Variable Date_getTime : JsVal → option Z.
Variable messages_list : JsVal → option Response.

Local Abbreviation toTs := (toTs Date_getTime).
Local Abbreviation isUnreadMessage := (isUnreadMessage Date_getTime).
Local Abbreviation attachOne := (attachOne Date_getTime messages_list).
Local Abbreviation attachUnreadMessages :=
  (attachUnreadMessages Date_getTime messages_list).

Lemma isUnreadMessage_spec (m : JsObj) (lastSeenTs : Z) (meId : JsVal) :
  isUnreadMessage m lastSeenTs meId = true
  ↔ toTs (get m "created") > lastSeenTs ∧ strictEq (get m "personId") meId = false.
Proof.
  unfold FetchUnread.isUnreadMessage.
  destruct (Z.leb_spec (toTs (get m "created")) lastSeenTs).
  - split; [discriminate | lia].
  - rewrite negb_true_iff. split; [intros; split; [lia | done] | tauto].
Qed.

Lemma includes_spec (l : list JsVal) (x : JsVal) :
  includes l x = true ↔ ∃ y, In y l ∧ strictEq y x = true.
Proof. unfold includes, sameValueZero. apply existsb_exists. Qed.

Lemma includes_str (l : list JsVal) (s : string) :
  includes l (JStr s) = true ↔ In (JStr s) l.
Proof.
  rewrite includes_spec. split.
  - intros (y & Hy & Heq). apply strictEq_str in Heq. by subst.
  - intros Hin. exists (JStr s). split; [done |]. by apply strictEq_str.
Qed.

Lemma roomMentionsMe_spec (unread : list JsObj) (meId : JsVal) :
  truthy meId = true →
  roomMentionsMe unread meId = true
  ↔ ∃ m people, In m unread ∧ get m "mentionedPeople" = JArr people
                ∧ includes people meId = true.
Proof.
  intros Hme. unfold roomMentionsMe. rewrite Hme. cbn [negb].
  rewrite existsb_exists. unfold mentions. split.
  - intros (m & Hm & Hmen). exists m.
    destruct (get m "mentionedPeople") as [| | | | |people]; try discriminate.
    by exists people.
  - intros (m & people & Hm & Hget & Hinc). exists m. by rewrite Hget.
Qed.

(** C3: when the listing of a room's messages succeeds, the unread
    messages attached to the room are exactly the listed messages
    created strictly after the room's last-seen timestamp whose
    [personId] is not the current user's id, in ascending order of
    creation; and, the current user having an id, [mentionedMe] holds
    exactly when some attached message's [mentionedPeople] array
    contains that id. *)
Theorem attachOne_unread (r : Room) (meId : JsVal) (resp : Response) :
  messages_list (room_id r) = Some resp →
  truthy meId = true →
  let att := attachOne meId r in
  let lastSeenTs := toTs (room_lastSeenDate r) in
  (∀ m, In m (unreadMessages att)
        ↔ In m (extractItems resp) ∧ toTs (get m "created") > lastSeenTs
          ∧ strictEq (get m "personId") meId = false)
  ∧ Permutation (unreadMessages att)
      (List.filter (fun m => isUnreadMessage m lastSeenTs meId) (extractItems resp))
  ∧ StronglySorted (fun a b => toTs (get a "created") ≤ toTs (get b "created"))
      (unreadMessages att)
  ∧ (∀ m, strictEq (get m "personId") meId = true → ¬ In m (unreadMessages att))
  ∧ unreadMessageCount att = Z.of_nat (length (unreadMessages att))
  ∧ (mentionedMe att = true
     ↔ ∃ m people, In m (unreadMessages att)
                   ∧ get m "mentionedPeople" = JArr people
                   ∧ includes people meId = true)
  ∧ (∀ me, meId = JStr me →
      (∀ m, In m (unreadMessages att)
            ↔ In m (extractItems resp) ∧ toTs (get m "created") > lastSeenTs
              ∧ get m "personId" ≠ JStr me)
      ∧ (mentionedMe att = true
         ↔ ∃ m people, In m (unreadMessages att)
                       ∧ get m "mentionedPeople" = JArr people
                       ∧ In (JStr me) people)).
Proof.
  intros Hresp Hme. cbn zeta.
  unfold FetchUnread.attachOne, getUnreadMessages. rewrite Hresp.
  cbn [mbind option_bind unreadMessages unreadMessageCount mentionedMe].
  set (key := fun m : JsObj => toTs (get m "created")).
  set (unreadOnes := List.filter _ (extractItems resp)).
  assert (∀ m, In m (sortBy (fun a b => key a - key b) unreadOnes)
               ↔ In m (extractItems resp) ∧ key m > toTs (room_lastSeenDate r)
                 ∧ strictEq (get m "personId") meId = false) as Hin.
  { intros m. rewrite sortBy_In. unfold unreadOnes.
    rewrite filter_In. by rewrite isUnreadMessage_spec. }
  split_and!.
  - apply Hin.
  - apply sortBy_perm.
  - apply sortBy_sorted; intros; lia.
  - intros m Heq Hm. apply Hin in Hm. destruct Hm as (_ & _ & Hne). congruence.
  - done.
  - by apply roomMentionsMe_spec.
  - intros me ->. split.
    + intros m.
      assert (strictEq (get m "personId") (JStr me) = false
              ↔ get m "personId" ≠ JStr me) as Hdiff.
      { rewrite <- strictEq_str.
        by destruct (strictEq (get m "personId") (JStr me)). }
      etransitivity; [apply Hin |].
      split; intros (? & ? & ?); split_and!; try done; by apply Hdiff.
    + rewrite roomMentionsMe_spec by done.
      split; intros (m & people & ? & ? & ?); exists m, people.
      * by rewrite <- includes_str.
      * by rewrite includes_str.
Qed.

(** C4: when the listing of one room's messages fails the room is kept,
    with no unread messages, a count of 0 and no mention; every room
    still has its entry, at its place; what is attached to another
    room depends on that room's own listing only; and the bot filter
    keeps the degraded room, whose type the activity filter has already
    checked. *)
Theorem attachUnreadMessages_failure
    (unreadRooms : list Room) (meId : JsVal) (i : nat) (r : Room) :
  unreadRooms !! i = Some r →
  messages_list (room_id r) = None →
  let degraded := mkRoomWithMessages r [] 0 false in
  attachUnreadMessages unreadRooms meId !! i = Some degraded
  ∧ length (attachUnreadMessages unreadRooms meId) = length unreadRooms
  ∧ (∀ (other_list : JsVal → option Response) (j : nat) (r' : Room),
       unreadRooms !! j = Some r' →
       other_list (room_id r') = messages_list (room_id r') →
       FetchUnread.attachUnreadMessages Date_getTime other_list unreadRooms meId !! j
       = attachUnreadMessages unreadRooms meId !! j)
  ∧ roomHasNoBotMessages degraded = true
  ∧ (isOutputRoom degraded = true →
     In degraded (botNoiseFilter (attachUnreadMessages unreadRooms meId)))
  ∧ (∀ (now activityHours : Z) (raws : list JsObj),
       unreadRooms
       = List.filter room_isUnread (normalized Date_getTime now activityHours raws) →
       In degraded (botNoiseFilter (attachUnreadMessages unreadRooms meId))).
Proof.
  intros Hi Hfail. cbn zeta.
  assert (attachUnreadMessages unreadRooms meId !! i
          = Some (mkRoomWithMessages r [] 0 false)) as Hdeg.
  { unfold FetchUnread.attachUnreadMessages. rewrite list_lookup_fmap, Hi.
    cbn. unfold FetchUnread.attachOne, getUnreadMessages. by rewrite Hfail. }
  assert (In (mkRoomWithMessages r [] 0 false)
            (attachUnreadMessages unreadRooms meId)) as Hin.
  { apply list_elem_of_In. by eapply list_elem_of_lookup_2. }
  split_and!.
  - exact Hdeg.
  - unfold FetchUnread.attachUnreadMessages. apply length_map.
  - intros other j r' Hj Hsame.
    unfold FetchUnread.attachUnreadMessages. rewrite !list_lookup_fmap, Hj.
    cbn. unfold FetchUnread.attachOne, getUnreadMessages. by rewrite Hsame.
  - done.
  - intros Htype. by apply botNoiseFilter_In.
  - intros now activityHours raws Heq.
    apply botNoiseFilter_In. split; [done |]. split; [| done].
    assert (In r unreadRooms) as Hr
      by (apply list_elem_of_In; by eapply list_elem_of_lookup_2).
    rewrite Heq in Hr. apply filter_In in Hr as [Hr _].
    apply normalized_In in Hr as (_ & Htype & _).
    unfold isOutputRoom. by apply ROOM_TYPES_has_spec.
Qed.
End Resolver.

(** ** The people index *)

Section PeopleIndex.

Lemma recordsUnderb_spec (k : string) (m : JsObj) :
  recordsUnderb k m = true ↔ recordsUnder k m.
Proof.
  unfold recordsUnderb, recordsUnder.
  rewrite !andb_true_iff, String.eqb_eq. tauto.
Qed.

Lemma coalesce_null_truthy (v : JsVal) : truthy (coalesce v JNull) = truthy v.
Proof. by destruct v. Qed.

Lemma coalesce_null_toString (v : JsVal) :
  truthy v = true → toString (coalesce v JNull) = toString v.
Proof. by destruct v. Qed.

Lemma recordPerson_lookup (people m : JsObj) (k : string) :
  allTruthy people →
  recordPerson people m !! k
  = match people !! k with
    | Some v => Some v
    | None => if recordsUnderb k m then Some (get m "personId") else None
    end.
Proof.
  intros Hall. unfold recordPerson, recordsUnderb.
  rewrite coalesce_null_truthy.
  destruct (truthy (get m "personEmail")) eqn:He; cbn [andb];
    [| by destruct (people !! k)].
  rewrite (coalesce_null_toString _ He).
  destruct (truthy (get m "personId")) eqn:Hp; cbn [andb];
    [| by destruct (people !! k)].
  set (key := toString (get m "personEmail")).
  destruct (people !! key) as [v|] eqn:Hkey.
  - assert (strictEq (get people key) JUndefined = false) as ->.
    { unfold get. rewrite Hkey. cbn. pose proof (Hall _ _ Hkey). by destruct v. }
    destruct (people !! k) as [w|] eqn:Hk; [done |].
    destruct (String.eqb_spec key k) as [-> | Hne]; [congruence | done].
  - assert (strictEq (get people key) JUndefined = true) as ->
      by (unfold get; by rewrite Hkey).
    destruct (String.eqb_spec key k) as [<- | Hne].
    + by rewrite lookup_insert_eq, Hkey.
    + rewrite lookup_insert_ne by done. by destruct (people !! k).
Qed.

Lemma recordPerson_allTruthy (people m : JsObj) :
  allTruthy people → allTruthy (recordPerson people m).
Proof.
  intros Hall k v. rewrite recordPerson_lookup by done.
  destruct (people !! k) as [w|] eqn:Hk.
  - intros [= <-]. by eapply Hall.
  - destruct (recordsUnderb k m) eqn:Hr; [| done].
    intros [= <-]. apply recordsUnderb_spec in Hr. apply Hr.
Qed.

Lemma slimMessagesOf_fst (people : JsObj) (messages : list JsObj) :
  (slimMessagesOf people messages).1 = foldl recordPerson people messages.
Proof.
  revert people. induction messages as [|m rest IH]; intros people; [done |].
  cbn [slimMessagesOf foldl]. unfold recordAndSlim. rewrite <- IH.
  by destruct (slimMessagesOf (recordPerson people m) rest).
Qed.

Lemma buildPeopleFrom_fst (people : JsObj) (rooms : list RoomWithMessages) :
  (buildPeopleFrom people rooms).1 = foldl recordPerson people (messagesInOrder rooms).
Proof.
  revert people. induction rooms as [|r rest IH]; intros people; [done |].
  cbn [buildPeopleFrom]. unfold messagesInOrder. cbn [flat_map]. rewrite foldl_app.
  pose proof (slimMessagesOf_fst people (unreadMessages r)) as Hs.
  destruct (slimMessagesOf people (unreadMessages r)) as [people' msgs].
  cbn [fst] in Hs. subst people'.
  pose proof (IH (foldl recordPerson people (unreadMessages r))) as Hb.
  by destruct (buildPeopleFrom _ rest) as [people'' rest'].
Qed.

Lemma foldl_recordPerson_lookup (people : JsObj) (messages : list JsObj) (k : string) :
  allTruthy people →
  foldl recordPerson people messages !! k
  = match people !! k with
    | Some v => Some v
    | None => firstRecorded k messages
    end.
Proof.
  revert people. induction messages as [|m rest IH]; intros people Hall.
  - cbn. by destruct (people !! k).
  - cbn [foldl firstRecorded].
    rewrite IH by by apply recordPerson_allTruthy.
    rewrite recordPerson_lookup by done.
    destruct (people !! k); [done |]. by destruct (recordsUnderb k m).
Qed.

Lemma firstRecorded_spec (k : string) (messages : list JsObj) (v : JsVal) :
  firstRecorded k messages = Some v
  ↔ ∃ pre m post, messages = (pre ++ m :: post)%list
                  ∧ recordsUnder k m ∧ get m "personId" = v
                  ∧ ∀ m', In m' pre → ¬ recordsUnder k m'.
Proof.
  induction messages as [|m0 rest IH]; cbn [firstRecorded].
  - split; [discriminate |]. intros ([|??] & ? & ? & ? & _); discriminate.
  - destruct (recordsUnderb k m0) eqn:Hr.
    + apply recordsUnderb_spec in Hr. split.
      * intros [= <-]. exists [], m0, rest. by split_and!.
      * intros ([|m1 pre] & m & post & Heq & Hrec & Hv & Hpre);
          cbn in Heq; injection Heq as -> ->.
        -- by rewrite Hv.
        -- exfalso. apply (Hpre m1); [by left | done].
    + assert (¬ recordsUnder k m0) as Hnot
        by (rewrite <- recordsUnderb_spec; congruence).
      rewrite IH. split.
      * intros (pre & m & post & -> & Hrec & Hv & Hpre).
        exists (m0 :: pre), m, post. split_and!; try done.
        intros m' [<- | Hin]; [done | by apply Hpre].
      * intros ([|m1 pre] & m & post & Heq & Hrec & Hv & Hpre);
          cbn in Heq; injection Heq as -> ->.
        -- done.
        -- exists pre, m, post. split_and!; try done.
           intros m' Hin. apply Hpre. by right.
Qed.
(** C6, as the code has it: the index holds one id per key, and the id
    under an email is the [personId] of the first message, rooms in
    output order and messages in order within a room, that carries this
    email together with a truthy [personId]; a message whose email is
    null or absent gives no entry. *)
Theorem buildPeople_first_recorded
    (roomsWithMessages : list RoomWithMessages) (k : string) (v : JsVal) :
  let people := (buildPeopleAndSlimMessages roomsWithMessages).1 in
  let messages := messagesInOrder roomsWithMessages in
  (people !! k = Some v
   ↔ ∃ pre m post, messages = (pre ++ m :: post)%list
                   ∧ recordsUnder k m ∧ get m "personId" = v
                   ∧ ∀ m', In m' pre → ¬ recordsUnder k m')
  ∧ NoDup (map fst (map_to_list people))
  ∧ ((∀ m, In m messages → nullish (get m "personEmail") = true) → people = ∅).
Proof.
  cbn zeta. unfold buildPeopleAndSlimMessages.
  rewrite buildPeopleFrom_fst.
  assert (∀ k', foldl recordPerson ∅ (messagesInOrder roomsWithMessages) !! k'
                = firstRecorded k' (messagesInOrder roomsWithMessages)) as Hlook.
  { intros k'. rewrite foldl_recordPerson_lookup; [by rewrite lookup_empty |].
    intros ? ?. by rewrite lookup_empty. }
  split_and!.
  - rewrite Hlook. apply firstRecorded_spec.
  - apply NoDup_fst_map_to_list.
  - intros Hnull. apply map_eq. intros k'. rewrite Hlook, lookup_empty.
    destruct (firstRecorded k' (messagesInOrder roomsWithMessages)) as [w|] eqn:Hf;
      [| done].
    apply firstRecorded_spec in Hf as (pre & m & post & Heq & (He & _) & _).
    assert (nullish (get m "personEmail") = true) as Hn.
    { apply Hnull. rewrite Heq. apply in_or_app. right. by left. }
    destruct (get m "personEmail"); discriminate.
Qed.

Lemma buildPeople_first_recorded_witness :
  (buildPeopleAndSlimMessages [Samples.mixedRoom]).1 !! "ana@example.com"
  = Some (JStr "P2").
Proof.
  apply (buildPeople_first_recorded [Samples.mixedRoom]).
  exists [Samples.botMessage], Samples.humanMessage, [].
  split; [reflexivity |]. split; [by vm_compute |]. split; [reflexivity |].
  intros m' [<- | []] (_ & _ & Hk). vm_compute in Hk. discriminate.
Defined.

(** C6 as worded fails when the first message bearing an email has no
    person id: the entry under the email is the id of a later message. *)
Lemma buildPeople_first_bearing_counterexample :
  let people := (buildPeopleAndSlimMessages [Samples.anaRoom]).1 in
  let first := Samples.anonymousMessage in
  messagesInOrder [Samples.anaRoom] = [first; Samples.humanMessage]
  ∧ get first "personEmail" = JStr "ana@example.com"
  ∧ people !! "ana@example.com" = Some (JStr "P2")
  ∧ people !! "ana@example.com" ≠ Some (get first "personId").
Proof.
  cbn zeta. split_and!.
  - reflexivity.
  - reflexivity.
  - vm_compute. reflexivity.
  - vm_compute. discriminate.
Qed.
End PeopleIndex.

(** ** Slimming *)

Section Slimming.

Lemma slimMessage_lookup (m : JsObj) (k : string) :
  slimMessage m !! k
  = if (String.eqb k "roomId" || String.eqb k "personId" || String.eqb k "roomType"
        || String.eqb k "created" || String.eqb k "updated")%bool then None
    else if String.eqb k "text" then
      if (negb (nullish (get m "markdown")) || negb (nullish (get m "html")))%bool
      then None else m !! "text"
    else if String.eqb k "markdown" then
      if negb (nullish (get m "html")) then None else m !! "markdown"
    else m !! k.
Proof.
  unfold slimMessage, get.
  rewrite !lookup_delete_ne by done.
  destruct (nullish (default JUndefined (m !! "markdown"))); cbn [negb];
    rewrite ?lookup_delete_ne by done;
    destruct (nullish (default JUndefined (m !! "html"))); cbn [negb orb];
    repeat match goal with
           | |- context [String.eqb ?a ?b] => destruct (String.eqb_spec a b); subst
           end; cbn [orb]; try discriminate;
    repeat (rewrite ?lookup_delete_eq; rewrite ?lookup_delete_ne by congruence);
    done.
Qed.

Lemma get_slim_html (m : JsObj) : get (slimMessage m) "html" = get m "html".
Proof. unfold get at 1. by rewrite slimMessage_lookup. Qed.

Lemma get_slim_markdown (m : JsObj) :
  get (slimMessage m) "markdown"
  = if negb (nullish (get m "html")) then JUndefined else get m "markdown".
Proof.
  unfold get at 1. rewrite slimMessage_lookup. cbn.
  by destruct (nullish (get m "html")).
Qed.

Lemma slim_lookup_text (m : JsObj) :
  slimMessage m !! "text"
  = if (negb (nullish (get m "markdown")) || negb (nullish (get m "html")))%bool
    then None else m !! "text".
Proof. by rewrite slimMessage_lookup. Qed.

Lemma slim_lookup_markdown (m : JsObj) :
  slimMessage m !! "markdown"
  = if negb (nullish (get m "html")) then None else m !! "markdown".
Proof. by rewrite slimMessage_lookup. Qed.

(** C7: slimming a slimmed message changes nothing.  After one slimming
    the message has no [roomId], [personId], [roomType], [created] or
    [updated]; with an [html] body it has neither [markdown] nor [text],
    and with a [markdown] body it has no [text]. *)
Theorem slimMessage_idempotent (m : JsObj) :
  slimMessage (slimMessage m) = slimMessage m
  ∧ slimMessage m !! "roomId" = None
  ∧ slimMessage m !! "personId" = None
  ∧ slimMessage m !! "roomType" = None
  ∧ slimMessage m !! "created" = None
  ∧ slimMessage m !! "updated" = None
  ∧ (nullish (get (slimMessage m) "html") = false →
     slimMessage m !! "markdown" = None ∧ slimMessage m !! "text" = None)
  ∧ (nullish (get (slimMessage m) "markdown") = false →
     slimMessage m !! "text" = None).
Proof.
  split_and!; try (by rewrite slimMessage_lookup).
  - apply map_eq. intros k.
    rewrite (slimMessage_lookup (slimMessage m)), get_slim_html, get_slim_markdown.
    rewrite slim_lookup_text, slim_lookup_markdown, (slimMessage_lookup m k).
    destruct (String.eqb k "roomId" || String.eqb k "personId"
              || String.eqb k "roomType" || String.eqb k "created"
              || String.eqb k "updated")%bool; [done |].
    destruct (String.eqb k "text"), (String.eqb k "markdown");
      destruct (nullish (get m "html")); cbn [negb orb]; try done;
      destruct (nullish (get m "markdown")); cbn [negb orb]; done.
  - rewrite get_slim_html. intros Hh.
    rewrite !slimMessage_lookup. cbn. rewrite Hh. cbn. by rewrite orb_true_r.
  - rewrite get_slim_markdown. intros Hmd.
    rewrite slimMessage_lookup. cbn.
    destruct (nullish (get m "html")); cbn in *; [| done]. by rewrite Hmd.
Qed.

Lemma slimMessage_idempotent_witness :
  slimMessage Samples.humanMessage !! "text" = None.
Proof.
  apply (slimMessage_idempotent Samples.humanMessage). reflexivity.
Defined.
End Slimming.

(** ** The activity window *)

Section ActivityHours.

(** C8, as the code has it: the window is 24 hours when neither the
    command line nor the environment supplies a value, when the value
    is empty or does not start with an integer, and when the integer is
    below 1 (or too large for a finite number); otherwise it is the
    integer, at most 720.  A value below 1 is not raised to 1.  The
    window is always between 1 and 720, and a command-line value takes
    the place of the environment's. *)
Theorem getActivityHours_effective (cliHours envActivityHours : option string) :
  let supplied := cliOrEnv cliHours envActivityHours in
  let window := getActivityHours cliHours envActivityHours in
  1 ≤ window ≤ 720
  ∧ (supplied = None → window = 24)
  ∧ (∀ raw, supplied = Some raw → parseInt10 raw = None → window = 24)
  ∧ (∀ raw n, supplied = Some raw → parseInt10 raw = Some n → n < 1 → window = 24)
  ∧ (∀ raw n, supplied = Some raw → parseInt10 raw = Some n →
       1 ≤ n < DOUBLE_OVERFLOW → window = Z.min n 720)
  ∧ (∀ raw n, supplied = Some raw → parseInt10 raw = Some n →
       DOUBLE_OVERFLOW ≤ n → window = 24)
  ∧ (∀ v, cliHours = Some v → supplied = Some v)
  ∧ (cliHours = None → supplied = envActivityHours).
Proof.
  cbn zeta. unfold getActivityHours.
  unfold DEFAULT_ACTIVITY_HOURS, MIN_ACTIVITY_HOURS, MAX_ACTIVITY_HOURS, isFinite.
  assert (0 < DOUBLE_OVERFLOW) as Hbig by (by vm_compute).
  split_and!.
  - destruct (cliOrEnv cliHours envActivityHours) as [raw|]; [| lia].
    destruct (String.eqb raw ""); [lia |].
    destruct (parseInt10 raw) as [n|]; [| lia].
    destruct (Z.ltb_spec (Z.abs n) DOUBLE_OVERFLOW); cbn [negb orb]; [| lia].
    destruct (Z.ltb_spec n 1); lia.
  - destruct (cliOrEnv cliHours envActivityHours) as [raw|]; [| lia].
    destruct (String.eqb raw ""); [lia |].
    destruct (parseInt10 raw) as [n|]; [| lia].
    destruct (Z.ltb_spec (Z.abs n) DOUBLE_OVERFLOW); cbn [negb orb]; [| lia].
    destruct (Z.ltb_spec n 1); lia.
  - by intros ->.
  - intros raw -> ->. by destruct (String.eqb raw "").
  - intros raw n -> -> Hn. destruct (String.eqb raw ""); [done |].
    destruct (Z.ltb_spec (Z.abs n) DOUBLE_OVERFLOW); cbn [negb orb]; [| done].
    destruct (Z.ltb_spec n 1); [done | lia].
  - intros raw n -> Hp [Hlo Hhi]. rewrite Hp.
    destruct (String.eqb_spec raw "") as [-> | _]; [discriminate |].
    destruct (Z.ltb_spec (Z.abs n) DOUBLE_OVERFLOW); cbn [negb orb]; [| lia].
    destruct (Z.ltb_spec n 1); [lia | done].
  - intros raw n -> -> Hn. destruct (String.eqb raw ""); [done |].
    destruct (Z.ltb_spec (Z.abs n) DOUBLE_OVERFLOW); cbn [negb orb]; [lia | done].
  - by intros v ->.
  - by intros ->.
Qed.

Lemma getActivityHours_effective_witness :
  getActivityHours (Some "5000") (Some "12") = Z.min 5000 720.
Proof.
  destruct (getActivityHours_effective (Some "5000") (Some "12"))
    as (_ & _ & _ & _ & Hcap & _).
  apply (Hcap "5000" 5000).
  - reflexivity.
  - reflexivity.
  - split; [lia | by vm_compute].
Defined.

(** C8 as worded fails on [--hours 0]: clamping 0 to [1, 720] gives 1,
    and the window is 24. *)
Lemma getActivityHours_clamp_counterexample :
  parseInt10 "0" = Some 0
  ∧ getActivityHours (Some "0") None = 24
  ∧ getActivityHours (Some "0") None ≠ Z.max 1 (Z.min 0 720).
Proof. split_and!; [reflexivity | reflexivity | by vm_compute]. Qed.
End ActivityHours.

(** ** The send pipeline *)

Section Send.
Variable initWebex : string → option string.
Variable messages_create : JsObj → JsObj + string.

Local Abbreviation main := (main initWebex messages_create).

Lemma includesChar_spec (s : string) (c : ascii) :
  includesChar s c = true ↔ ∃ pre post, s = pre +:+ String c post.
Proof.
  induction s as [|a s IH]; cbn [includesChar].
  - split; [discriminate |]. intros ([|??] & post & Heq); discriminate.
  - rewrite orb_true_iff, IH. split.
    + intros [Heq | (pre & post & ->)].
      * apply Ascii.eqb_eq in Heq as ->. by exists "", s.
      * by exists (String a pre), post.
    + intros ([|a' pre] & post & Heq); cbn in Heq; injection Heq as -> ->.
      * left. apply Ascii.eqb_refl.
      * right. by exists pre, post.
Qed.

(** No run submits more than one message. *)
Lemma main_at_most_one (env : Env) (parsed : ParseOutcome) :
  (length (created (main env parsed)) ≤ 1)%nat.
Proof.
  unfold SendMessage.main.
  repeat match goal with
         | |- context [match ?x with _ => _ end] => destruct x
         end; cbn; lia.
Qed.

(** C9, as the code has it: when the command line is accepted, the
    credential, the recipient and the body are not blank, and the
    client is ready, the recipient stripped of surrounding white space
    is taken for a person when it contains [@] and for a room
    otherwise, and the run submits exactly one message, which carries
    the stripped body as [markdown] and the stripped recipient as
    [toPersonEmail] for a person, as [roomId] for a room, and not the
    other field.  In every other case the run submits nothing. *)
Theorem main_submits_once (env : Env) (parsed : ParseOutcome) :
  (∀ token opts,
     WEBEX_ACCESS_TOKEN env = Some token →
     trim token ≠ "" →
     parsed = Parsed opts →
     let to := trim (firstOf (opt_to opts) (WEBEX_TO env)) in
     let markdown := trim (firstOf (opt_message opts) (WEBEX_MESSAGE env)) in
     to ≠ "" →
     markdown ≠ "" →
     initWebex token = None →
     ∃ payload,
       created (main env parsed) = [payload]
       ∧ payload !! "markdown" = Some (JStr markdown)
       ∧ (isEmail (JStr to) = true ↔ ∃ pre post, to = pre +:+ String "@" post)
       ∧ (isEmail (JStr to) = true →
          payload !! "toPersonEmail" = Some (JStr to) ∧ payload !! "roomId" = None)
       ∧ (isEmail (JStr to) = false →
          payload !! "roomId" = Some (JStr to) ∧ payload !! "toPersonEmail" = None))
  ∧ ((¬ ∃ token opts,
          WEBEX_ACCESS_TOKEN env = Some token
          ∧ trim token ≠ ""
          ∧ parsed = Parsed opts
          ∧ trim (firstOf (opt_to opts) (WEBEX_TO env)) ≠ ""
          ∧ trim (firstOf (opt_message opts) (WEBEX_MESSAGE env)) ≠ ""
          ∧ initWebex token = None) →
     created (main env parsed) = []).
Proof.
  split.
  - intros token opts Htok Htrim ->. cbn zeta. intros Hto Hmd Hinit.
    unfold SendMessage.main. rewrite Htok.
    destruct (String.eqb_spec (trim token) ""); [done |].
    destruct (String.eqb_spec (trim (firstOf (opt_to opts) (WEBEX_TO env))) "");
      [done |].
    destruct (String.eqb_spec
                (trim (firstOf (opt_message opts) (WEBEX_MESSAGE env))) ""); [done |].
    rewrite Hinit.
    set (to := trim (firstOf (opt_to opts) (WEBEX_TO env))).
    set (markdown := trim (firstOf (opt_message opts) (WEBEX_MESSAGE env))).
    set (payload := if isEmail (JStr to) then _ else _).
    exists payload. split_and!.
    + by destruct (messages_create payload).
    + unfold payload. destruct (isEmail (JStr to)); by simplify_map_eq.
    + apply includesChar_spec.
    + unfold payload. intros ->. by simplify_map_eq.
    + unfold payload. intros ->. by simplify_map_eq.
  - intros Hnot. unfold SendMessage.main.
    destruct (WEBEX_ACCESS_TOKEN env) as [token|] eqn:Htok; [| done].
    destruct (String.eqb_spec (trim token) ""); [done |].
    destruct parsed as [opts | code]; [| done].
    destruct (String.eqb_spec (trim (firstOf (opt_to opts) (WEBEX_TO env))) "");
      [done |].
    destruct (String.eqb_spec
                (trim (firstOf (opt_message opts) (WEBEX_MESSAGE env))) ""); [done |].
    destruct (initWebex token) as [msg|] eqn:Hinit; [done |].
    exfalso. apply Hnot. exists token, opts. by split_and!.
Qed.
End Send.

Lemma main_submits_once_witness :
  (∃ payload,
     created (main (fun _ => None) (fun _ => inr "rejected")
                (mkEnv (Some "token") (Some "R1") None)
                (Parsed (mkSendOpts (Some " ana@example.com ") (Some "**hi**"))))
     = [payload]
     ∧ payload !! "toPersonEmail" = Some (JStr "ana@example.com")
     ∧ payload !! "roomId" = None)
  ∧ created (main (fun _ => Some "SDK ready timeout (60000ms)") (fun _ => inl ∅)
               (mkEnv (Some "token") None None)
               (Parsed (mkSendOpts (Some "ana@example.com") (Some "**hi**"))))
    = []
  ∧ created (main (fun _ => None) (fun _ => inl ∅)
               (mkEnv (Some "token") (Some "R1") (Some "hi")) (ParseExit 1))
    = [].
Proof.
  split_and!.
  - destruct (main_submits_once (fun _ => None) (fun _ => inr "rejected")
                (mkEnv (Some "token") (Some "R1") None)
                (Parsed (mkSendOpts (Some " ana@example.com ") (Some "**hi**"))))
      as (Hsubmit & _).
    destruct (Hsubmit "token" (mkSendOpts (Some " ana@example.com ") (Some "**hi**")))
      as (payload & Hone & _ & _ & Hperson & _).
    + reflexivity.
    + by vm_compute.
    + reflexivity.
    + by vm_compute.
    + by vm_compute.
    + reflexivity.
    + exists payload. split; [exact Hone |]. apply Hperson. reflexivity.
  - apply (main_submits_once (fun _ => Some "SDK ready timeout (60000ms)")
             (fun _ => inl ∅) (mkEnv (Some "token") None None)
             (Parsed (mkSendOpts (Some "ana@example.com") (Some "**hi**")))).
    intros (token & opts & _ & _ & _ & _ & _ & Hinit). discriminate.
  - apply (main_submits_once (fun _ => None) (fun _ => inl ∅)
             (mkEnv (Some "token") (Some "R1") (Some "hi")) (ParseExit 1)).
    intros (token & opts & _ & _ & Hparsed & _). discriminate.
Defined.

(** C9 as worded fails on a recipient made of one space: it is not
    empty and has no [@], and the run reports a missing recipient and
    submits nothing. *)
Lemma main_blank_recipient_counterexample :
  let trace := main (fun _ => None) (fun _ => inl ∅)
                 (mkEnv (Some "token") None None)
                 (Parsed (mkSendOpts (Some " ") (Some "hi"))) in
  " " ≠ ""
  ∧ isEmail (JStr " ") = false
  ∧ created trace = []
  ∧ ¬ ∃ payload, created trace = [payload]
                 ∧ payload !! "roomId" = Some (JStr " ").
Proof.
  cbn zeta. split_and!; try (by vm_compute).
  intros (payload & Hone & _). vm_compute in Hone. discriminate.
Qed.

(** ** The theorems at sample inputs *)

Lemma normalizeRoom_isUnread_witness :
  toTs referenceDate (JStr "2026-02-15T12:00:00.000Z") = 1771156800000
  ∧ room_isUnread (normalizeRoom referenceDate Samples.rawDirect)
    = (1771156800000 >? 1771149600000)
  ∧ room_isUnread (normalizeRoom referenceDate Samples.rawDirect) = true
  ∧ room_isUnread (normalizeRoom referenceDate Samples.rawVisited)
    = (1771149600000 >? 1771156800000)
  ∧ room_isUnread (normalizeRoom referenceDate Samples.rawVisited) = false
  ∧ room_isUnread (normalizeRoom referenceDate Samples.rawRoom) = (1771153200000 >? 0)
  ∧ toTs referenceDate (JStr "not a date") = 0
  ∧ toTs referenceDate
      (room_lastSeenDate (normalizeRoom referenceDate Samples.undatedRoom)) = 0
  ∧ toTs referenceDate
      (room_lastActivityDate (normalizeRoom referenceDate Samples.undatedRoom)) = 0.
Proof.
  destruct (normalizeRoom_isUnread referenceDate Samples.undatedRoom)
    as (_ & _ & Hread & _ & _ & _ & _ & _ & _ & Hbad & Hseen & Hact & _).
  destruct (normalizeRoom_isUnread referenceDate Samples.rawDirect)
    as (_ & _ & _ & Hboth & _).
  destruct (normalizeRoom_isUnread referenceDate Samples.rawVisited)
    as (_ & _ & _ & Hvisited & _).
  destruct (normalizeRoom_isUnread referenceDate Samples.rawRoom)
    as (_ & _ & _ & _ & _ & Hunreadable & _).
  assert (room_isUnread (normalizeRoom referenceDate Samples.rawDirect)
          = (1771156800000 >? 1771149600000)) as Hunread
    by (apply Hboth; reflexivity).
  assert (room_isUnread (normalizeRoom referenceDate Samples.rawVisited)
          = (1771149600000 >? 1771156800000)) as Hold
    by (apply Hvisited; reflexivity).
  split_and!.
  - apply Hread; reflexivity.
  - exact Hunread.
  - rewrite Hunread. reflexivity.
  - exact Hold.
  - rewrite Hold. reflexivity.
  - apply Hunreadable; reflexivity.
  - apply Hbad. reflexivity.
  - apply Hseen; reflexivity.
  - apply Hact; reflexivity.
Defined.


Lemma attachOne_unread_witness :
  let att := attachOne referenceDate Samples.listing (JStr "ME") Samples.groupRoom in
  unreadMessages att = [Samples.botMessage; Samples.humanMessage]
  ∧ ¬ In Samples.ownMessage (unreadMessages att)
  ∧ StronglySorted
      (fun a b => toTs referenceDate (get a "created")
                  ≤ toTs referenceDate (get b "created"))
      (unreadMessages att).
Proof.
  destruct (attachOne_unread referenceDate Samples.listing Samples.groupRoom (JStr "ME")
              (RespItems [Samples.humanMessage; Samples.ownMessage;
                          Samples.botMessage; Samples.seenMessage]))
    as (_ & _ & Hsorted & Hown & _).
  - reflexivity.
  - reflexivity.
  - cbn zeta. split_and!.
    + vm_compute. reflexivity.
    + apply Hown. reflexivity.
    + exact Hsorted.
Defined.

Lemma attachUnreadMessages_failure_witness :
  let attached := attachUnreadMessages referenceDate Samples.listing
                    [Samples.groupRoom; Samples.directRoom] (JStr "ME") in
  let degraded := mkRoomWithMessages Samples.directRoom [] 0 false in
  attached !! 1%nat = Some degraded ∧ In degraded (botNoiseFilter attached).
Proof.
  destruct (attachUnreadMessages_failure referenceDate Samples.listing
              [Samples.groupRoom; Samples.directRoom] (JStr "ME") 1 Samples.directRoom)
    as (Hdegraded & _ & _ & _ & Hkept & _).
  - reflexivity.
  - reflexivity.
  - split; [exact Hdegraded |]. apply Hkept. reflexivity.
Defined.

(** ** A run of the whole pipeline *)

(** The two scenarios of the specification in one run: the direct room
    comes out unread, with one message, the mention seen and its title
    set to the sender's address; the group room of bot messages is left
    out, and still counts in [total]. *)
Example mainPayload_scenario :
  let payload := mainPayload referenceDate Samples.scenarioListing Samples.noon
                   ["--hours"; "24"] None None
                   (RespItems [Samples.rawGroup; Samples.rawDirect])
                   (Some Samples.me) in
  map (fun r => (room_id (room r), room_title (room r), room_isUnread (room r),
                 unreadMessageCount r, mentionedMe r)) (rooms payload)
  = [(JStr "RA", JStr "ana@example.com", true, 1, true)]
  ∧ map unreadMessages (rooms payload)
    = [[ {[ "id" := JStr "a1"; "personEmail" := JStr "ana@example.com";
            "html" := JStr "<p>ping</p>";
            "mentionedPeople" := JArr [JStr "ME"] ]} ]]
  ∧ people payload = {[ "ana@example.com" := JStr "P2" ]}
  ∧ stats payload = {| total := 2; unread := 1; read := 0 |}.
Proof. cbn zeta. split_and!; vm_compute; reflexivity. Qed.

(** * Further properties of the scripts *)

(** ** Options and settings *)

Section Settings.

Lemma substring_all (s : string) : substring 0 (String.length s) s = s.
Proof. induction s as [|c s IH]; [done |]. cbn. by rewrite IH. Qed.

Lemma string_app_cons (c : ascii) (s t : string) :
  String c s +:+ t = String c (s +:+ t).
Proof. reflexivity. Qed.

Lemma string_app_nil (t : string) : "" +:+ t = t.
Proof. reflexivity. Qed.

(** X1: the cap on the rooms returned is always between 1 and 1000.  It
    is 30 when neither the command line nor the environment gives a
    value, when the value is empty or does not start with an integer,
    and when the integer is below 1 (or too large for a finite number);
    otherwise it is the integer, at most 1000.  A command-line value
    takes the place of the environment's. *)
Theorem getMaxRoomsToReturn_effective (cliMaxRooms envMaxRecent : option string) :
  let supplied := cliOrEnv cliMaxRooms envMaxRecent in
  let cap := getMaxRoomsToReturn cliMaxRooms envMaxRecent in
  1 ≤ cap ≤ 1000
  ∧ (supplied = None → cap = 30)
  ∧ (∀ raw, supplied = Some raw → parseInt10 raw = None → cap = 30)
  ∧ (∀ raw n, supplied = Some raw → parseInt10 raw = Some n → n < 1 → cap = 30)
  ∧ (∀ raw n, supplied = Some raw → parseInt10 raw = Some n →
       1 ≤ n < DOUBLE_OVERFLOW → cap = Z.min n 1000)
  ∧ (∀ raw n, supplied = Some raw → parseInt10 raw = Some n →
       DOUBLE_OVERFLOW ≤ n → cap = 30)
  ∧ (∀ v, cliMaxRooms = Some v → supplied = Some v)
  ∧ (cliMaxRooms = None → supplied = envMaxRecent).
Proof.
  cbn zeta. unfold getMaxRoomsToReturn.
  unfold DEFAULT_MAX_RECENT, MAX_RECENT_CAP, isFinite.
  assert (0 < DOUBLE_OVERFLOW) as Hbig by (by vm_compute).
  split_and!.
  - destruct (cliOrEnv cliMaxRooms envMaxRecent) as [raw|]; [| lia].
    destruct (String.eqb raw ""); [lia |].
    destruct (parseInt10 raw) as [n|]; [| lia].
    destruct (Z.ltb_spec (Z.abs n) DOUBLE_OVERFLOW); cbn [negb orb]; [| lia].
    destruct (Z.ltb_spec n 1); lia.
  - destruct (cliOrEnv cliMaxRooms envMaxRecent) as [raw|]; [| lia].
    destruct (String.eqb raw ""); [lia |].
    destruct (parseInt10 raw) as [n|]; [| lia].
    destruct (Z.ltb_spec (Z.abs n) DOUBLE_OVERFLOW); cbn [negb orb]; [| lia].
    destruct (Z.ltb_spec n 1); lia.
  - by intros ->.
  - intros raw -> ->. by destruct (String.eqb raw "").
  - intros raw n -> -> Hn. destruct (String.eqb raw ""); [done |].
    destruct (Z.ltb_spec (Z.abs n) DOUBLE_OVERFLOW); cbn [negb orb]; [| done].
    destruct (Z.ltb_spec n 1); [done | lia].
  - intros raw n -> Hp [Hlo Hhi]. rewrite Hp.
    destruct (String.eqb_spec raw "") as [-> | _]; [discriminate |].
    destruct (Z.ltb_spec (Z.abs n) DOUBLE_OVERFLOW); cbn [negb orb]; [| lia].
    destruct (Z.ltb_spec n 1); [lia | done].
  - intros raw n -> -> Hn. destruct (String.eqb raw ""); [done |].
    destruct (Z.ltb_spec (Z.abs n) DOUBLE_OVERFLOW); cbn [negb orb]; [lia | done].
  - by intros v ->.
  - by intros ->.
Qed.

Lemma getMaxRoomsToReturn_effective_witness :
  getMaxRoomsToReturn None (Some "-4") = 30
  ∧ getMaxRoomsToReturn (Some "2500 rooms") (Some "7") = Z.min 2500 1000.
Proof.
  split.
  - destruct (getMaxRoomsToReturn_effective None (Some "-4"))
      as (_ & _ & _ & Hlow & _).
    apply (Hlow "-4" (-4)); [reflexivity | reflexivity | lia].
  - destruct (getMaxRoomsToReturn_effective (Some "2500 rooms") (Some "7"))
      as (_ & _ & _ & _ & Hcap & _).
    apply (Hcap "2500 rooms" 2500); [reflexivity | reflexivity |].
    split; [lia | by vm_compute].
Defined.

(** X2: an option may be spelled with its long name, its short name or
    [name=value], to the same effect: [--hours V], [-H V] and
    [--hours=V] leave the same options, and so do [--max-rooms V],
    [-n V] and [--max-rooms=V]. *)
Theorem parseArgs_spellings (v : string) (rest : list string) (opts : Opts) :
  parseArgsFrom ("-H" :: v :: rest) opts = parseArgsFrom ("--hours" :: v :: rest) opts
  ∧ parseArgsFrom (("--hours=" +:+ v) :: rest) opts
    = parseArgsFrom ("--hours" :: v :: rest) opts
  ∧ parseArgsFrom ("-n" :: v :: rest) opts
    = parseArgsFrom ("--max-rooms" :: v :: rest) opts
  ∧ parseArgsFrom (("--max-rooms=" +:+ v) :: rest) opts
    = parseArgsFrom ("--max-rooms" :: v :: rest) opts
  ∧ parseArgsFrom ("--hours" :: v :: rest) opts
    = parseArgsFrom rest (mkOpts (Some v) (maxRooms opts))
  ∧ parseArgsFrom ("--max-rooms" :: v :: rest) opts
    = parseArgsFrom rest (mkOpts (hours opts) (Some v)).
Proof.
  split_and!; try reflexivity.
  - rewrite !string_app_cons, string_app_nil.
    cbn [parseArgsFrom]. unfold startsWith, slice. cbn.
    assert (String.prefix "" v = true) as -> by (by destruct v).
    by rewrite Nat.sub_0_r, substring_all.
  - rewrite !string_app_cons, string_app_nil.
    cbn [parseArgsFrom]. unfold startsWith, slice. cbn.
    assert (String.prefix "" v = true) as -> by (by destruct v).
    by rewrite Nat.sub_0_r, substring_all.
Qed.

(** X3: arguments that are not options are skipped: in front of any
    command line they change nothing, and a command line made of them
    only sets no option. *)
Theorem parseArgs_skips (skipped argv : list string) (opts : Opts) :
  forallb (fun arg => negb (isOption arg)) skipped = true →
  parseArgsFrom (skipped ++ argv)%list opts = parseArgsFrom argv opts
  ∧ parseArgs skipped = mkOpts None None.
Proof.
  intros Hskip.
  assert (∀ rest o, parseArgsFrom (skipped ++ rest)%list o = parseArgsFrom rest o) as Hgo.
  { induction skipped as [|arg skipped IH]; intros rest o; [done |].
    cbn [forallb] in Hskip. apply andb_true_iff in Hskip as [Harg Hskip].
    apply negb_true_iff in Harg. unfold isOption in Harg.
    repeat (apply orb_false_iff in Harg as [Harg ?]).
    cbn [app parseArgsFrom].
    repeat match goal with H : _ = false |- _ => rewrite H; clear H end.
    cbn [orb]. by apply IH. }
  split; [apply Hgo |].
  unfold parseArgs. rewrite <- (app_nil_r skipped). by rewrite Hgo.
Qed.

Lemma parseArgs_skips_witness :
  parseArgsFrom (["fetch"; "--verbose"] ++ ["-H"; "12"])%list (mkOpts None None)
  = parseArgsFrom ["-H"; "12"] (mkOpts None None).
Proof.
  apply (parseArgs_skips ["fetch"; "--verbose"] ["-H"; "12"] (mkOpts None None)).
  reflexivity.
Defined.
End Settings.

(** ** The name of the output file *)

Section FileName.

Lemma replaceColons_no_colon (s : string) : includesChar (replaceColons s) ":" = false.
Proof.
  induction s as [|c s IH]; [done |]. cbn [replaceColons includesChar].
  rewrite IH, orb_false_r.
  destruct (Ascii.eqb_spec c ":") as [-> | Hc]; [done |].
  by apply Ascii.eqb_neq.
Qed.

Lemma replaceColons_app (s t : string) :
  replaceColons (s +:+ t) = replaceColons s +:+ replaceColons t.
Proof.
  induction s as [|c s IH]; [done |].
  rewrite !string_app_cons. cbn [replaceColons]. by rewrite string_app_cons, IH.
Qed.

Lemma includesChar_app (s t : string) (c : ascii) :
  includesChar (s +:+ t) c = includesChar s c || includesChar t c.
Proof.
  induction s as [|a s IH]; [done |].
  rewrite string_app_cons. cbn [includesChar]. by rewrite IH, orb_assoc.
Qed.

(** Dropping characters brings in no character. *)
Lemma dropMillis_includes (c : ascii) (s : string) :
  includesChar s c = false → includesChar (dropMillis s) c = false.
Proof.
  remember (String.length s) as n eqn:Hn. revert s Hn.
  induction (lt_wf n) as [n _ IH]. intros s -> Hs.
  destruct s as [|a s]; [done |].
  cbn [includesChar] in Hs. apply orb_false_iff in Hs as [Ha Hs].
  assert (includesChar (String a (dropMillis s)) c = false) as Hkeep.
  { cbn [includesChar]. rewrite Ha. cbn [orb].
    apply (IH (String.length s)); [cbn; lia | done | done]. }
  cbn [dropMillis].
  destruct s as [|d1 [|d2 [|d3 rest]]]; try exact Hkeep.
  destruct (Ascii.eqb a "." && isDigit d1 && isDigit d2 && isDigit d3)%bool;
    [| exact Hkeep].
  cbn [includesChar] in Hs.
  repeat (apply orb_false_iff in Hs as [? Hs]). exact Hs.
Qed.

Lemma dropMillis_first (pre rest : string) (d1 d2 d3 : ascii) :
  includesChar pre "." = false →
  isDigit d1 = true → isDigit d2 = true → isDigit d3 = true →
  dropMillis (pre +:+ String "." (String d1 (String d2 (String d3 rest))))
  = pre +:+ rest.
Proof.
  intros Hpre H1 H2 H3. induction pre as [|c pre IH].
  - rewrite string_app_nil. cbn [dropMillis]. by rewrite H1, H2, H3.
  - cbn [includesChar] in Hpre. apply orb_false_iff in Hpre as [Hc Hpre].
    rewrite !string_app_cons. cbn [dropMillis]. rewrite Hc. cbn [andb].
    rewrite (IH Hpre).
    by destruct (pre +:+ String "." (String d1 (String d2 (String d3 rest))))
      as [|? [|? [|? ?]]].
Qed.

(** X4: the name of the output file has no colon, whatever the two date
    strings are.  Of a date string that reads some text without a dot,
    then a dot and three digits, then a tail, the file-safe form is the
    text and the tail with every colon turned into a dash: the
    milliseconds go and nothing else. *)
Theorem outputFileName_safe (since to : string) :
  includesChar (outputFileName since to) ":" = false
  ∧ includesChar (toFileSafeIso since) ":" = false
  ∧ (∀ pre rest d1 d2 d3,
       since = pre +:+ String "." (String d1 (String d2 (String d3 rest))) →
       includesChar pre "." = false →
       isDigit d1 = true → isDigit d2 = true → isDigit d3 = true →
       toFileSafeIso since = replaceColons pre +:+ replaceColons rest).
Proof.
  assert (∀ s, includesChar (toFileSafeIso s) ":" = false) as Hsafe.
  { intros s. unfold toFileSafeIso.
    apply dropMillis_includes, replaceColons_no_colon. }
  split_and!.
  - unfold outputFileName. rewrite !includesChar_app, !Hsafe. reflexivity.
  - apply Hsafe.
  - intros pre rest d1 d2 d3 -> Hpre H1 H2 H3. unfold toFileSafeIso.
    rewrite replaceColons_app. cbn [replaceColons].
    assert (∀ d, isDigit d = true → (if Ascii.eqb d ":" then "-"%char else d) = d)
      as Hdigit.
    { intros d Hd. destruct (Ascii.eqb_spec d ":") as [-> | _]; [discriminate | done]. }
    rewrite (Hdigit d1 H1), (Hdigit d2 H2), (Hdigit d3 H3).
    apply dropMillis_first; try done.
    clear -Hpre. induction pre as [|c pre IH]; [done |].
    cbn [includesChar] in Hpre. apply orb_false_iff in Hpre as [Hc Hpre].
    cbn [replaceColons includesChar]. rewrite (IH Hpre), orb_false_r.
    destruct (Ascii.eqb_spec c ":") as [-> | _]; [done | exact Hc].
Qed.

Lemma outputFileName_safe_witness :
  toFileSafeIso "2026-02-15T12:00:00.000Z" = "2026-02-15T12-00-00Z".
Proof.
  destruct (outputFileName_safe "2026-02-15T12:00:00.000Z" "") as (_ & _ & Hshape).
  apply (Hshape "2026-02-15T12:00:00" "Z" "0"%char "0"%char "0"%char); reflexivity.
Defined.
End FileName.

(** ** The stages of the pipeline *)

(** A stable sort keeps, within a class of elements that compare as
    equal, the order of the input. *)
Section SortClass.
Context {A : Type} (cmp : A → A → Z) (p : A → bool).
Hypothesis same_class : ∀ x y, p x = true → p y = true → cmp x y ≤ 0.

Lemma insertBy_filter_class (x : A) (l : list A) :
  List.filter p (insertBy cmp x l) = List.filter p (x :: l).
Proof.
  induction l as [|y l IH]; [done |]. cbn [insertBy].
  destruct (Z.leb_spec (cmp x y) 0) as [Hle | Hgt]; [done |].
  cbn [List.filter] in *. rewrite IH.
  destruct (p x) eqn:Hx, (p y) eqn:Hy; try done.
  pose proof (same_class x y Hx Hy). lia.
Qed.

Lemma sortBy_filter_class (l : list A) :
  List.filter p (sortBy cmp l) = List.filter p l.
Proof.
  induction l as [|x l IH]; [done |]. cbn [sortBy foldr].
  rewrite insertBy_filter_class. cbn [List.filter].
  unfold sortBy in IH. by rewrite IH.
Qed.
End SortClass.

Section Stages.
Variable Date_getTime : JsVal → option Z.
Variable messages_list : JsVal → option Response.

Local Abbreviation toTs := (toTs Date_getTime).
Local Abbreviation normalizeRoom := (normalizeRoom Date_getTime).
Local Abbreviation normalized := (normalized Date_getTime).
Local Abbreviation attachOne := (attachOne Date_getTime messages_list).
Local Abbreviation attachUnreadMessages :=
  (attachUnreadMessages Date_getTime messages_list).

(** X5: after the activity filter the rooms come most recent first, and
    rooms with the same activity timestamp keep the order in which the
    provider listed them. *)
Theorem normalized_order (now activityHours : Z) (raws : list JsObj) :
  StronglySorted
    (fun a b => toTs (room_lastActivityDate b) ≤ toTs (room_lastActivityDate a))
    (normalized now activityHours raws)
  ∧ ∀ ts,
      List.filter (fun r => toTs (room_lastActivityDate r) =? ts)
        (normalized now activityHours raws)
      = List.filter (fun r => toTs (room_lastActivityDate r) =? ts)
          (List.filter (fun r => inLastXhours Date_getTime now r activityHours)
             (List.filter (fun r => ROOM_TYPES_has (room_type r))
                (map normalizeRoom raws))).
Proof.
  split.
  - unfold FetchUnread.normalized. apply sortBy_sorted; intros; lia.
  - intros ts. unfold FetchUnread.normalized. apply sortBy_filter_class.
    intros x y Hx Hy. apply Z.eqb_eq in Hx, Hy. lia.
Qed.

(** X6: a wider window never loses a room: a room the activity filter
    keeps for some number of hours is kept for every larger number, at
    the same clock reading. *)
Theorem normalized_window_monotone
    (now hours1 hours2 : Z) (raws : list JsObj) (r : Room) :
  hours1 ≤ hours2 →
  In r (normalized now hours1 raws) →
  In r (normalized now hours2 raws).
Proof.
  intros Hle. rewrite !normalized_In. intros (? & ? & ?). split_and!; try done. lia.
Qed.

Lemma attachOne_room (meId : JsVal) (r : Room) :
  room (attachOne meId r) = r
  ∧ unreadMessageCount (attachOne meId r)
    = Z.of_nat (length (unreadMessages (attachOne meId r)))
  ∧ (mentionedMe (attachOne meId r) = true → unreadMessages (attachOne meId r) ≠ []).
Proof.
  unfold FetchUnread.attachOne.
  destruct (getUnreadMessages Date_getTime messages_list r meId) as [unread|];
    cbn; split_and!; try done.
  unfold roomMentionsMe. destruct (negb (truthy meId)); [done |].
  by destruct unread.
Qed.

(** X7: attaching the unread messages neither drops, reorders nor
    changes a room, whether its listing succeeds or fails; in every
    entry the count is the number of messages attached, and a mention
    is reported only where a message is attached. *)
Theorem attachUnreadMessages_rooms (unreadRooms : list Room) (meId : JsVal) :
  map room (attachUnreadMessages unreadRooms meId) = unreadRooms
  ∧ ∀ a, In a (attachUnreadMessages unreadRooms meId) →
         unreadMessageCount a = Z.of_nat (length (unreadMessages a))
         ∧ (mentionedMe a = true → unreadMessages a ≠ []).
Proof.
  unfold FetchUnread.attachUnreadMessages. split.
  - rewrite map_map. rewrite <- (map_id unreadRooms) at 2.
    apply map_ext. intros r. apply attachOne_room.
  - intros a Ha. apply in_map_iff in Ha as (r & <- & _).
    split; apply attachOne_room.
Qed.

Lemma filter_all {A : Type} (f : A → bool) (l : list A) :
  (∀ x, In x l → f x = true) → List.filter f l = l.
Proof.
  induction l as [|x l IH]; [done |]. intros Hall. cbn [List.filter].
  rewrite (Hall x) by (by left). f_equal. apply IH. intros y Hy. apply Hall. by right.
Qed.

(** X8: in [main] the type test of [roomsFiltered] never drops a room:
    the rooms it is applied to have passed the same test in the
    activity filter, so the bot test is the only one that acts. *)
Theorem isOutputRoom_redundant
    (now activityHours : Z) (raws : list JsObj) (meId : JsVal) :
  let unreadWithMessages :=
    attachUnreadMessages
      (List.filter room_isUnread (normalized now activityHours raws)) meId in
  List.filter isOutputRoom unreadWithMessages = unreadWithMessages
  ∧ botNoiseFilter unreadWithMessages
    = List.filter roomHasNoBotMessages unreadWithMessages.
Proof.
  cbn zeta.
  assert (List.filter isOutputRoom
            (attachUnreadMessages
               (List.filter room_isUnread (normalized now activityHours raws)) meId)
          = attachUnreadMessages
              (List.filter room_isUnread (normalized now activityHours raws)) meId)
    as Hall.
  { apply filter_all. intros a Ha.
    unfold FetchUnread.attachUnreadMessages in Ha.
    apply in_map_iff in Ha as (r & <- & Hr).
    apply filter_In in Hr as [Hr _]. apply normalized_In in Hr as (_ & Htype & _).
    unfold isOutputRoom. destruct (attachOne_room meId r) as (-> & _).
    by apply ROOM_TYPES_has_spec. }
  split; [exact Hall |]. unfold botNoiseFilter. by rewrite Hall.
Qed.
End Stages.

Lemma normalized_window_monotone_witness :
  In (normalizeRoom referenceDate Samples.rawGroup)
     (normalized referenceDate Samples.noon 48 [Samples.rawGroup; Samples.undatedRoom]).
Proof.
  apply (normalized_window_monotone referenceDate Samples.noon 1 48).
  - lia.
  - vm_compute. by left.
Defined.

(** ** Titles, slimming and the index *)

Section Assembly.

Lemma setDirectRoomTitle_keeps (r : RoomWithMessages) :
  let r' := setDirectRoomTitle r in
  room_id (room r') = room_id (room r)
  ∧ room_type (room r') = room_type (room r)
  ∧ room_lastActivityDate (room r') = room_lastActivityDate (room r)
  ∧ room_lastSeenDate (room r') = room_lastSeenDate (room r)
  ∧ room_isUnread (room r') = room_isUnread (room r)
  ∧ unreadMessages r' = unreadMessages r
  ∧ unreadMessageCount r' = unreadMessageCount r
  ∧ mentionedMe r' = mentionedMe r.
Proof.
  cbn zeta. unfold setDirectRoomTitle.
  destruct (_ || _)%bool; [done |].
  by destruct (truthy _).
Qed.

(** X9: setting the titles changes nothing but titles, and only those of
    direct rooms that have an unread message whose last one carries a
    truthy email: such a room is titled with that email; a room of
    another type, a room without unread messages, and a room whose last
    unread message has no email are left as they are. *)
Theorem setDirectRoomTitles_titles
    (roomsWithMessages : list RoomWithMessages) (i : nat) (r : RoomWithMessages) :
  roomsWithMessages !! i = Some r →
  ∃ r', setDirectRoomTitles roomsWithMessages !! i = Some r'
    ∧ length (setDirectRoomTitles roomsWithMessages) = length roomsWithMessages
    ∧ room_id (room r') = room_id (room r)
    ∧ room_type (room r') = room_type (room r)
    ∧ room_lastActivityDate (room r') = room_lastActivityDate (room r)
    ∧ room_lastSeenDate (room r') = room_lastSeenDate (room r)
    ∧ room_isUnread (room r') = room_isUnread (room r)
    ∧ unreadMessages r' = unreadMessages r
    ∧ unreadMessageCount r' = unreadMessageCount r
    ∧ mentionedMe r' = mentionedMe r
    ∧ (room_type (room r) ≠ JStr "direct" → r' = r)
    ∧ (unreadMessages r = [] → r' = r)
    ∧ (∀ m, room_type (room r) = JStr "direct" →
            last (unreadMessages r) = Some m →
            (truthy (get m "personEmail") = true →
             room_title (room r') = get m "personEmail")
            ∧ (truthy (get m "personEmail") = false → r' = r)).
Proof.
  intros Hi. exists (setDirectRoomTitle r).
  pose proof (setDirectRoomTitle_keeps r) as Hkeep. cbn zeta in Hkeep.
  destruct Hkeep as (? & ? & ? & ? & ? & ? & ? & ?).
  split_and!; try done.
  - unfold setDirectRoomTitles. by rewrite list_lookup_fmap, Hi.
  - unfold setDirectRoomTitles. apply length_map.
  - intros Hne. unfold setDirectRoomTitle.
    destruct (strictEq (room_type (room r)) (JStr "direct")) eqn:Heq; [| done].
    by apply strictEq_str in Heq.
  - intros Hnil. unfold setDirectRoomTitle. rewrite Hnil. cbn.
    by rewrite orb_true_r.
  - intros m Hdirect Hlast. unfold setDirectRoomTitle.
    assert (strictEq (room_type (room r)) (JStr "direct") = true) as ->
      by (by apply strictEq_str).
    rewrite Hlast. destruct (unreadMessages r) as [|m0 ms]; [done |].
    cbn [negb orb length Nat.eqb]. split; by intros ->.
Qed.

Lemma setDirectRoomTitles_titles_witness :
  ∃ r', setDirectRoomTitles [Samples.mixedRoom; Samples.anaRoom] !! 1%nat = Some r'
        ∧ room_title (room r') = JStr "ana@example.com".
Proof.
  destruct (setDirectRoomTitles_titles [Samples.mixedRoom; Samples.anaRoom] 1
              Samples.anaRoom)
    as (r' & Hat & _ & _ & _ & _ & _ & _ & _ & _ & _ & _ & _ & Htitle).
  - reflexivity.
  - exists r'. split; [exact Hat |].
    apply (Htitle Samples.humanMessage); reflexivity.
Defined.

(** X10: slimming only removes: a property it leaves has the value it
    had, and a property other than the five it drops and the two bodies
    [text] and [markdown] is always left.  The richest body survives
    unchanged: [html] when it is not null, else [markdown] when it is
    not null, else [text]. *)
Theorem slimMessage_keeps (m : JsObj) :
  (∀ k, k ≠ "roomId" → k ≠ "personId" → k ≠ "roomType" → k ≠ "created" →
        k ≠ "updated" → k ≠ "text" → k ≠ "markdown" →
        slimMessage m !! k = m !! k)
  ∧ (∀ k, slimMessage m !! k = None ∨ slimMessage m !! k = m !! k)
  ∧ slimMessage m !! "html" = m !! "html"
  ∧ (nullish (get m "html") = true → nullish (get m "markdown") = false →
     slimMessage m !! "markdown" = m !! "markdown")
  ∧ (nullish (get m "html") = true → nullish (get m "markdown") = true →
     slimMessage m !! "text" = m !! "text").
Proof.
  split_and!.
  - intros k H1 H2 H3 H4 H5 H6 H7. rewrite slimMessage_lookup.
    repeat match goal with
           | H : k ≠ ?c |- _ =>
               apply String.eqb_neq in H; rewrite H; clear H
           end.
    done.
  - intros k. rewrite slimMessage_lookup.
    destruct (String.eqb k "roomId" || String.eqb k "personId"
              || String.eqb k "roomType" || String.eqb k "created"
              || String.eqb k "updated")%bool; [by left |].
    destruct (String.eqb_spec k "text") as [-> | _].
    { destruct (_ || _)%bool; [by left | by right]. }
    destruct (String.eqb_spec k "markdown") as [-> | _]; [| by right].
    destruct (negb _); [by left | by right].
  - by rewrite slimMessage_lookup.
  - intros Hh Hmd. rewrite slim_lookup_markdown. by rewrite Hh.
  - intros Hh Hmd. rewrite slim_lookup_text. by rewrite Hh, Hmd.
Qed.

Lemma slimMessage_keeps_witness :
  slimMessage Samples.humanMessage !! "markdown" = Some (JStr "**thanks**")
  ∧ slimMessage Samples.humanMessage !! "mentionedPeople" = Some (JArr [JStr "ME"]).
Proof.
  destruct (slimMessage_keeps Samples.humanMessage) as (Hother & _ & _ & Hmd & _).
  split.
  - rewrite Hmd; reflexivity.
  - rewrite Hother; [reflexivity | done..].
Defined.

Lemma slimMessagesOf_snd (people : JsObj) (messages : list JsObj) :
  (slimMessagesOf people messages).2 = map slimMessage messages.
Proof.
  revert people. induction messages as [|m rest IH]; intros people; [done |].
  cbn [slimMessagesOf map]. unfold recordAndSlim.
  rewrite <- (IH (recordPerson people m)).
  by destruct (slimMessagesOf (recordPerson people m) rest).
Qed.

Lemma buildPeopleFrom_snd (people : JsObj) (rooms : list RoomWithMessages) :
  (buildPeopleFrom people rooms).2
  = map (fun r => mkRoomWithMessages (room r) (map slimMessage (unreadMessages r))
                    (unreadMessageCount r) (mentionedMe r)) rooms.
Proof.
  revert people. induction rooms as [|r rest IH]; intros people; [done |].
  cbn [buildPeopleFrom map].
  pose proof (slimMessagesOf_snd people (unreadMessages r)) as Hs.
  destruct (slimMessagesOf people (unreadMessages r)) as [people' msgs].
  cbn [snd] in Hs. subst msgs.
  rewrite <- (IH people'). by destruct (buildPeopleFrom people' rest).
Qed.

(** X11: building the index leaves every room in its place with its
    fields, its count and its mention flag, and every message in its
    place, slimmed: no room and no message is lost or reordered. *)
Theorem buildPeopleAndSlimMessages_rooms (roomsWithMessages : list RoomWithMessages) :
  (buildPeopleAndSlimMessages roomsWithMessages).2
  = map (fun r => mkRoomWithMessages (room r) (map slimMessage (unreadMessages r))
                    (unreadMessageCount r) (mentionedMe r)) roomsWithMessages
  ∧ length (buildPeopleAndSlimMessages roomsWithMessages).2 = length roomsWithMessages
  ∧ map (fun r => length (unreadMessages r)) (buildPeopleAndSlimMessages roomsWithMessages).2
    = map (fun r => length (unreadMessages r)) roomsWithMessages.
Proof.
  unfold buildPeopleAndSlimMessages. rewrite buildPeopleFrom_snd.
  split_and!; [done | apply length_map |].
  rewrite map_map. apply map_ext. intros r. cbn. apply length_map.
Qed.

Lemma foldl_recordPerson_allTruthy (people : JsObj) (messages : list JsObj) :
  allTruthy people → allTruthy (foldl recordPerson people messages).
Proof.
  revert people. induction messages as [|m rest IH]; intros people Hall; [done |].
  cbn [foldl]. by apply IH, recordPerson_allTruthy.
Qed.

Lemma firstRecorded_is_Some (k : string) (messages : list JsObj) (m : JsObj) :
  In m messages → recordsUnder k m → is_Some (firstRecorded k messages).
Proof.
  induction messages as [|m0 rest IH]; [done |].
  intros [-> | Hin] Hrec; cbn [firstRecorded].
  - apply recordsUnderb_spec in Hrec. by rewrite Hrec.
  - destruct (recordsUnderb k m0); [done | by apply IH].
Qed.

(** X12: the index covers every sender: a message of the rooms that
    carries a truthy email and a truthy person id has its email as a
    key of the index, and every id in the index is truthy. *)
Theorem buildPeople_covers (roomsWithMessages : list RoomWithMessages) :
  let people := (buildPeopleAndSlimMessages roomsWithMessages).1 in
  allTruthy people
  ∧ ∀ m, In m (messagesInOrder roomsWithMessages) →
         truthy (get m "personEmail") = true →
         truthy (get m "personId") = true →
         ∃ pid, people !! toString (get m "personEmail") = Some pid
                ∧ truthy pid = true.
Proof.
  cbn zeta. unfold buildPeopleAndSlimMessages. rewrite buildPeopleFrom_fst.
  assert (allTruthy (foldl recordPerson ∅ (messagesInOrder roomsWithMessages)))
    as Hall.
  { apply foldl_recordPerson_allTruthy. intros ? ?. by rewrite lookup_empty. }
  split; [exact Hall |].
  intros m Hin He Hp.
  destruct (firstRecorded_is_Some (toString (get m "personEmail"))
              (messagesInOrder roomsWithMessages) m Hin) as [pid Hpid]; [done |].
  exists pid. split.
  - rewrite foldl_recordPerson_lookup; [by rewrite lookup_empty |].
    intros ? ?. by rewrite lookup_empty.
  - apply (Hall (toString (get m "personEmail"))).
    rewrite foldl_recordPerson_lookup; [by rewrite lookup_empty |].
    intros ? ?. by rewrite lookup_empty.
Qed.

Lemma buildPeople_covers_witness :
  ∃ pid, (buildPeopleAndSlimMessages [Samples.anaRoom]).1 !! "ana@example.com" = Some pid
         ∧ truthy pid = true.
Proof.
  destruct (buildPeople_covers [Samples.anaRoom]) as (_ & Hcover).
  apply (Hcover Samples.humanMessage).
  - simpl. right. by left.
  - reflexivity.
  - reflexivity.
Defined.
End Assembly.

(** ** The payload *)

Section PayloadFacts.
Variable Date_getTime : JsVal → option Z.
Variable messages_list : JsVal → option Response.

Local Abbreviation toTs := (toTs Date_getTime).
Local Abbreviation normalizeRoom := (normalizeRoom Date_getTime).
Local Abbreviation normalized := (normalized Date_getTime).
Local Abbreviation attachOne := (attachOne Date_getTime messages_list).
Local Abbreviation attachUnreadMessages :=
  (attachUnreadMessages Date_getTime messages_list).
Local Abbreviation mainPayload := (mainPayload Date_getTime messages_list).

Lemma In_take {A : Type} (n : nat) (l : list A) (x : A) : In x (take n l) → In x l.
Proof.
  revert n. induction l as [|y l IH]; intros [|n]; cbn; try done.
  intros [-> | Hin]; [by left | right; by eapply IH].
Qed.

Lemma filter_length_split {A : Type} (f : A → bool) (l : list A) :
  (length l = length (List.filter f l)
              + length (List.filter (fun x => negb (f x)) l))%nat.
Proof.
  induction l as [|x l IH]; [done |]. cbn [List.filter length].
  destruct (f x); cbn [negb length]; lia.
Qed.

Lemma filter_length_bound {A : Type} (f : A → bool) (l : list A) :
  (length (List.filter f l) ≤ length l)%nat.
Proof. pose proof (filter_length_split f l). lia. Qed.

Lemma getMaxRoomsToReturn_range (cli env : option string) :
  1 ≤ getMaxRoomsToReturn cli env ≤ 1000.
Proof.
  unfold getMaxRoomsToReturn, DEFAULT_MAX_RECENT, MAX_RECENT_CAP.
  destruct (cliOrEnv cli env) as [raw|]; [| lia].
  destruct (String.eqb raw ""); [lia |].
  destruct (parseInt10 raw) as [n|]; [| lia].
  destruct (negb (isFinite n)); cbn [orb]; [lia |].
  destruct (Z.ltb_spec n 1); lia.
Qed.

Lemma senderAddress_slim (m : JsObj) :
  senderAddress (slimMessage m) = senderAddress m.
Proof. unfold senderAddress, get. by rewrite slimMessage_lookup. Qed.

(** The payload's rooms are the rooms kept by the filters and the cut,
    titled and slimmed. *)
Lemma mainPayload_rooms_eq (now : Z) (argv : list string)
    (envMaxRecent envActivityHours : option string)
    (roomsResponse : Response) (me : option JsObj) :
  rooms (mainPayload now argv envMaxRecent envActivityHours roomsResponse me)
  = map (fun r => mkRoomWithMessages (room r) (map slimMessage (unreadMessages r))
                    (unreadMessageCount r) (mentionedMe r))
      (setDirectRoomTitles
         (roomsFiltered
            (attachUnreadMessages
               (List.filter room_isUnread
                  (normalized now
                     (getActivityHours (hours (parseArgs argv)) envActivityHours)
                     (extractItems roomsResponse)))
               (match me with Some o => get o "id" | None => JUndefined end))
            (getMaxRoomsToReturn (maxRooms (parseArgs argv)) envMaxRecent))).
Proof.
  unfold FetchUnread.mainPayload.
  match goal with
  | |- context [buildPeopleAndSlimMessages ?t] =>
      pose proof (buildPeopleFrom_snd ∅ t) as Hsnd;
      fold (buildPeopleAndSlimMessages t) in Hsnd;
      destruct (buildPeopleAndSlimMessages t) as [ppl slimmed]
  end.
  cbn [snd] in Hsnd. by subst slimmed.
Qed.

Lemma mainPayload_stats_eq (now : Z) (argv : list string)
    (envMaxRecent envActivityHours : option string)
    (roomsResponse : Response) (me : option JsObj) :
  let norm := normalized now
                (getActivityHours (hours (parseArgs argv)) envActivityHours)
                (extractItems roomsResponse) in
  let unreadRooms := List.filter room_isUnread norm in
  stats (mainPayload now argv envMaxRecent envActivityHours roomsResponse me)
  = {| total := Z.of_nat (length norm);
       unread := Z.of_nat (length
                   (roomsFiltered
                      (attachUnreadMessages unreadRooms
                         (match me with Some o => get o "id" | None => JUndefined end))
                      (getMaxRoomsToReturn (maxRooms (parseArgs argv)) envMaxRecent)));
       read := Z.of_nat (length norm) - Z.of_nat (length unreadRooms) |}.
Proof.
  cbn zeta. unfold FetchUnread.mainPayload.
  by destruct (buildPeopleAndSlimMessages _).
Qed.

(** X13: the counts of the payload fit together.  [total] is the number
    of rooms the activity filter keeps, at most the number of rooms
    listed; [unread] is the number of rooms in the payload, at most the
    cap on rooms and so at most 1000; [read] is the number of kept
    rooms that are not unread; and [unread + read] never exceeds
    [total], falling short of it by the unread rooms that the bot
    filter or the cap left out. *)
Theorem mainPayload_stats (now : Z) (argv : list string)
    (envMaxRecent envActivityHours : option string)
    (roomsResponse : Response) (me : option JsObj) :
  let payload := mainPayload now argv envMaxRecent envActivityHours roomsResponse me in
  let norm := normalized now
                (getActivityHours (hours (parseArgs argv)) envActivityHours)
                (extractItems roomsResponse) in
  total (stats payload) = Z.of_nat (length norm)
  ∧ total (stats payload) ≤ Z.of_nat (length (extractItems roomsResponse))
  ∧ unread (stats payload) = Z.of_nat (length (rooms payload))
  ∧ unread (stats payload)
    ≤ getMaxRoomsToReturn (maxRooms (parseArgs argv)) envMaxRecent ≤ 1000
  ∧ read (stats payload)
    = Z.of_nat (length (List.filter (fun r => negb (room_isUnread r)) norm))
  ∧ unread (stats payload) + read (stats payload) ≤ total (stats payload).
Proof.
  cbn zeta. rewrite mainPayload_stats_eq, mainPayload_rooms_eq. cbn [total unread read].
  set (norm := normalized now _ (extractItems roomsResponse)).
  set (cap := getMaxRoomsToReturn _ envMaxRecent).
  set (meId := match me with Some o => get o "id" | None => JUndefined end).
  pose proof (getMaxRoomsToReturn_range (maxRooms (parseArgs argv)) envMaxRecent)
    as Hcap. fold cap in Hcap.
  assert (length norm ≤ length (extractItems roomsResponse))%nat as Hnorm.
  { unfold norm, FetchUnread.normalized.
    rewrite (Permutation_length (sortBy_perm _ _)).
    etransitivity; [apply filter_length_bound |].
    etransitivity; [apply filter_length_bound |]. by rewrite length_map. }
  assert (length (roomsFiltered
                    (attachUnreadMessages (List.filter room_isUnread norm) meId) cap)
          ≤ Nat.min (Z.to_nat cap) (length (List.filter room_isUnread norm)))%nat
    as Hcut.
  { unfold roomsFiltered. rewrite length_take.
    apply Nat.min_le_compat_l. unfold botNoiseFilter.
    etransitivity; [apply filter_length_bound |].
    etransitivity; [apply filter_length_bound |].
    unfold FetchUnread.attachUnreadMessages. by rewrite length_map. }
  pose proof (filter_length_split room_isUnread norm) as Hsplit.
  split_and!.
  - done.
  - lia.
  - unfold setDirectRoomTitles. by rewrite !length_map.
  - lia.
  - lia.
  - lia.
  - lia.
Qed.

(** X14: every room of the payload answers a room the provider listed:
    it has that room's id, type, dates and unread flag as normalized;
    it is unread, direct or group, and active since [now - window];
    its count is the number of its messages; and none of its messages
    comes from a bot address or still carries [personId], [roomId],
    [roomType], [created] or [updated]. *)
Theorem mainPayload_rooms (now : Z) (argv : list string)
    (envMaxRecent envActivityHours : option string)
    (roomsResponse : Response) (me : option JsObj) (r : RoomWithMessages) :
  let payload := mainPayload now argv envMaxRecent envActivityHours roomsResponse me in
  let window := getActivityHours (hours (parseArgs argv)) envActivityHours in
  In r (rooms payload) →
  (∃ raw, In raw (extractItems roomsResponse)
          ∧ room_id (room r) = get raw "id"
          ∧ room_type (room r) = room_type (normalizeRoom raw)
          ∧ room_lastActivityDate (room r) = room_lastActivityDate (normalizeRoom raw)
          ∧ room_lastSeenDate (room r) = room_lastSeenDate (normalizeRoom raw)
          ∧ room_isUnread (room r) = room_isUnread (normalizeRoom raw))
  ∧ room_isUnread (room r) = true
  ∧ toTs (room_lastActivityDate (room r)) > toTs (room_lastSeenDate (room r))
  ∧ (room_type (room r) = JStr "direct" ∨ room_type (room r) = JStr "group")
  ∧ now - window * 3600000 ≤ toTs (room_lastActivityDate (room r))
  ∧ unreadMessageCount r = Z.of_nat (length (unreadMessages r))
  ∧ ∀ m, In m (unreadMessages r) →
         ¬ fromBot m
         ∧ m !! "personId" = None ∧ m !! "roomId" = None ∧ m !! "roomType" = None
         ∧ m !! "created" = None ∧ m !! "updated" = None.
Proof.
  cbn zeta. rewrite mainPayload_rooms_eq.
  set (window := getActivityHours _ envActivityHours).
  set (meId := match me with Some o => get o "id" | None => JUndefined end).
  intros Hr.
  apply in_map_iff in Hr as (t & <- & Ht).
  unfold setDirectRoomTitles in Ht. apply in_map_iff in Ht as (f & <- & Hf).
  unfold roomsFiltered in Hf. apply In_take in Hf.
  apply botNoiseFilter_In in Hf as (Hf & _ & Hnobot).
  unfold FetchUnread.attachUnreadMessages in Hf.
  apply in_map_iff in Hf as (r0 & <- & Hr0).
  apply filter_In in Hr0 as [Hr0 Hunread].
  apply normalized_In in Hr0 as (Hraw & Htype & Hwin).
  apply in_map_iff in Hraw as (raw & Hnorm & Hraw).
  pose proof (setDirectRoomTitle_keeps
                (FetchUnread.attachOne Date_getTime messages_list meId r0)) as Hkeep.
  cbn zeta in Hkeep. destruct Hkeep as (Hid & Hty & Hact & Hseen & Hun & Hmsgs & Hcount & _).
  destruct (attachOne_room Date_getTime messages_list meId r0) as (Hroom & Hlen & _).
  cbn [room unreadMessages unreadMessageCount].
  rewrite Hid, Hty, Hact, Hseen, Hun, Hmsgs, Hcount, Hroom.
  split_and!; try done.
  - exists raw. subst r0. by split_and!.
  - subst r0. cbn in Hunread. by apply Z.gtb_gt in Hunread.
  - by rewrite length_map.
  - intros m Hm. apply in_map_iff in Hm as (m0 & <- & Hm0).
    split; [| by rewrite !slimMessage_lookup].
    unfold fromBot. rewrite senderAddress_slim.
    by apply (proj1 (roomHasNoBotMessages_spec _) Hnobot).
Qed.
End PayloadFacts.

Lemma mainPayload_rooms_witness :
  ∃ r raw,
    In r (rooms (mainPayload referenceDate Samples.scenarioListing Samples.noon
                   ["--hours"; "24"] None None
                   (RespItems [Samples.rawGroup; Samples.rawDirect])
                   (Some Samples.me)))
    ∧ In raw [Samples.rawGroup; Samples.rawDirect]
    ∧ room_id (room r) = get raw "id".
Proof.
  set (payload := mainPayload referenceDate Samples.scenarioListing Samples.noon
                    ["--hours"; "24"] None None
                    (RespItems [Samples.rawGroup; Samples.rawDirect])
                    (Some Samples.me)).
  assert (∃ r, In r (rooms payload)) as [r Hr].
  { assert (length (rooms payload) = 1%nat) as Hlen by (vm_compute; reflexivity).
    destruct (rooms payload) as [|r ?]; [discriminate |]. exists r. by left. }
  destruct (mainPayload_rooms referenceDate Samples.scenarioListing Samples.noon
              ["--hours"; "24"] None None
              (RespItems [Samples.rawGroup; Samples.rawDirect])
              (Some Samples.me) r Hr) as ((raw & Hraw & Hid & _) & _).
  exists r, raw. by split_and!.
Defined.

(** ** Runs of the send scripts *)

Section Trim.

Lemma trimStart_spec (s : string) :
  ∃ pre, s = pre +:+ trimStart s
         ∧ allWhiteSpace pre = true
         ∧ ∀ c t, trimStart s = String c t → isWhiteSpace c = false.
Proof.
  induction s as [|a s (pre & Heq & Hpre & Hhead)]; cbn [trimStart].
  - exists "". by split_and!.
  - destruct (isWhiteSpace a) eqn:Ha.
    + exists (String a pre). rewrite string_app_cons, <- Heq. cbn [allWhiteSpace].
      rewrite Ha, Hpre. by split_and!.
    + exists "". split_and!; [done | done |]. by intros c t [= <- <-].
Qed.

Lemma string_app_last_nil (u : string) (c : ascii) : u +:+ String c "" ≠ "".
Proof. by destruct u. Qed.

Lemma trimEnd_spec (t : string) :
  ∃ post, t = trimEnd t +:+ post
          ∧ allWhiteSpace post = true
          ∧ ∀ u c, trimEnd t = u +:+ String c "" → isWhiteSpace c = false.
Proof.
  induction t as [|a t (post & Heq & Hpost & Hlast)]; cbn [trimEnd].
  - exists "". split_and!; [done | done |].
    intros u c Hu. symmetry in Hu. by apply string_app_last_nil in Hu.
  - destruct (trimEnd t) as [|d w] eqn:Hend.
    + rewrite string_app_nil in Heq. subst post.
      destruct (isWhiteSpace a) eqn:Ha.
      * exists (String a t). rewrite string_app_nil. cbn [allWhiteSpace].
        rewrite Ha, Hpost. split_and!; [done | done |].
        intros u c Hu. symmetry in Hu. by apply string_app_last_nil in Hu.
      * exists t. split_and!; [done | done |].
        intros [|x u] c Hu.
        -- rewrite string_app_nil in Hu. by injection Hu as <-.
        -- rewrite string_app_cons in Hu. injection Hu as _ Hu.
           symmetry in Hu. by apply string_app_last_nil in Hu.
    + exists post. rewrite string_app_cons, <- Heq. split_and!; [done | done |].
      intros [|x u] c Hu.
      * rewrite string_app_nil in Hu. discriminate.
      * rewrite string_app_cons in Hu. injection Hu as _ Hu. by apply (Hlast u c).
Qed.

Lemma trimEnd_head (t : string) (c : ascii) (w : string) :
  trimEnd t = String c w → ∃ t', t = String c t'.
Proof.
  destruct t as [|a t]; cbn [trimEnd]; [done |].
  destruct (trimEnd t); [destruct (isWhiteSpace a) |];
    intros [= <- _]; by eexists.
Qed.

(** What [trim] leaves: the string without the white space around it. *)
Lemma trim_spec (s : string) :
  ∃ pre post, s = pre +:+ trim s +:+ post
              ∧ allWhiteSpace pre = true
              ∧ allWhiteSpace post = true
              ∧ (∀ c t, trim s = String c t → isWhiteSpace c = false)
              ∧ (∀ u c, trim s = u +:+ String c "" → isWhiteSpace c = false).
Proof.
  destruct (trimStart_spec s) as (pre & Hs & Hpre & Hhead).
  destruct (trimEnd_spec (trimStart s)) as (post & Ht & Hpost & Hlast).
  exists pre, post. unfold trim. split_and!; try done.
  - by rewrite <- Ht.
  - intros c t Hc. apply trimEnd_head in Hc as (t' & Hc). by apply (Hhead c t').
Qed.
End Trim.

Section SendRuns.
Variable initWebex : string → option string.
Variable messages_create : JsObj → JsObj + string.

Local Abbreviation main := (main initWebex messages_create).
Local Abbreviation mainWithStdin := (mainWithStdin initWebex messages_create).


(** X16: a flag takes the place of the environment variable, even when
    the flag is blank: with [--to] given the run does not depend on
    [WEBEX_TO], with [--message] given it does not depend on
    [WEBEX_MESSAGE], and a blank [--to] is a missing recipient though
    [WEBEX_TO] names one.  A run the option parser ends reads neither
    variable. *)
Theorem main_flags_over_env (token : option string) (envTo envMessage : option string)
    (opts : SendOpts) :
  (∀ to, opt_to opts = Some to →
         main (mkEnv token envTo envMessage) (Parsed opts)
         = main (mkEnv token None envMessage) (Parsed opts))
  ∧ (∀ message, opt_message opts = Some message →
         main (mkEnv token envTo envMessage) (Parsed opts)
         = main (mkEnv token envTo None) (Parsed opts))
  ∧ (∀ tok to, token = Some tok → trim tok ≠ "" →
         opt_to opts = Some to → trim to = "" →
         main (mkEnv token envTo envMessage) (Parsed opts)
         = [OutError "--to / -t or WEBEX_TO required (room ID or person email)";
            Exit 1])
  ∧ (∀ code, main (mkEnv token envTo envMessage) (ParseExit code)
             = main (mkEnv token None None) (ParseExit code)).
Proof.
  split_and!.
  - intros to Hto. unfold SendMessage.main. cbn. by rewrite Hto.
  - intros message Hm. unfold SendMessage.main. cbn. by rewrite Hm.
  - intros tok to -> Htok Hto Hblank. unfold SendMessage.main.
    cbn [WEBEX_ACCESS_TOKEN WEBEX_TO WEBEX_MESSAGE].
    destruct (String.eqb_spec (trim tok) ""); [done |].
    rewrite Hto. cbn [firstOf]. by rewrite Hblank.
  - intros code. reflexivity.
Qed.

(** X17: the script that accepts a piped body reads the pipe only when
    the command line is accepted, neither the flag nor the environment
    gives a body that is not blank, and standard input is not a
    terminal; in every other case it runs as the script without the
    pipe does.  When it reads the pipe, the body is the piped lines
    joined by newlines, without the white space around the whole: the
    one message submitted carries it, and nothing is submitted when it
    is empty. *)
Theorem mainWithStdin_body (env : Env) (parsed : ParseOutcome)
    (isTTY : bool) (stdin : list string) :
  let piped := String.concat (String (ascii_of_nat 10) "") stdin in
  (∀ code, parsed = ParseExit code →
           mainWithStdin env parsed isTTY stdin = main env parsed)
  ∧ (∀ opts, parsed = Parsed opts →
       trim (firstOf (opt_message opts) (WEBEX_MESSAGE env)) ≠ "" →
       mainWithStdin env parsed isTTY stdin = main env parsed)
  ∧ (isTTY = true → mainWithStdin env parsed isTTY stdin = main env parsed)
  ∧ (∀ opts, parsed = Parsed opts →
       trim (firstOf (opt_message opts) (WEBEX_MESSAGE env)) = "" →
       isTTY = false → trim piped = "" →
       created (mainWithStdin env parsed isTTY stdin) = [])
  ∧ (∀ opts token, parsed = Parsed opts →
       trim (firstOf (opt_message opts) (WEBEX_MESSAGE env)) = "" →
       isTTY = false → trim piped ≠ "" →
       WEBEX_ACCESS_TOKEN env = Some token → trim token ≠ "" →
       trim (firstOf (opt_to opts) (WEBEX_TO env)) ≠ "" →
       initWebex token = None →
       ∃ payload, created (mainWithStdin env parsed isTTY stdin) = [payload]
                  ∧ payload !! "markdown" = Some (JStr (trim piped)))
  ∧ (∃ pre post, piped = pre +:+ trim piped +:+ post
                 ∧ allWhiteSpace pre = true
                 ∧ allWhiteSpace post = true
                 ∧ (∀ c t, trim piped = String c t → isWhiteSpace c = false)
                 ∧ (∀ u c, trim piped = u +:+ String c "" → isWhiteSpace c = false))
  ∧ (∀ line, stdin = [line] → piped = line)
  ∧ (∀ line rest, rest ≠ [] → stdin = line :: rest →
       piped = line +:+ String (ascii_of_nat 10) ""
               +:+ String.concat (String (ascii_of_nat 10) "") rest).
Proof.
  cbn zeta. split_and!.
  - by intros code ->.
  - intros opts -> Hbody. apply String.eqb_neq in Hbody.
    unfold SendMessage.mainWithStdin, SendMessage.main.
    rewrite Hbody. cbn [andb]. by rewrite Hbody.
  - intros ->. unfold SendMessage.mainWithStdin, SendMessage.main.
    cbn [negb]. destruct parsed; [| done]. by rewrite andb_false_r.
  - intros opts -> Hbody -> Hin. unfold SendMessage.mainWithStdin, readStdin.
    rewrite Hbody, Hin. cbn.
    destruct (WEBEX_ACCESS_TOKEN env) as [token|]; [| done].
    destruct (String.eqb (trim token) ""); [done |].
    by destruct (String.eqb (trim (firstOf (opt_to opts) (WEBEX_TO env))) "").
  - intros opts token -> Hbody -> Hin Htok Htrim Hto Hinit.
    unfold SendMessage.mainWithStdin, readStdin. rewrite Htok, Hbody.
    destruct (String.eqb_spec (trim token) ""); [done |].
    destruct (String.eqb_spec (trim (firstOf (opt_to opts) (WEBEX_TO env))) "");
      [done |].
    cbn [String.eqb negb andb].
    destruct (String.eqb_spec
                (trim (String.concat (String (ascii_of_nat 10) "") stdin)) "");
      [done |].
    rewrite Hinit.
    set (payload := if isEmail _ then _ else _).
    exists payload. split.
    + by destruct (messages_create payload).
    + unfold payload. destruct (isEmail _); by simplify_map_eq.
  - apply trim_spec.
  - by intros line ->.
  - intros line [|l rest] Hne ->; done.
Qed.
End SendRuns.


Lemma main_flags_over_env_witness :
  SendMessage.main (fun _ => None) (fun _ => inl ∅)
    (mkEnv (Some "token") (Some "R1") (Some "hi"))
    (Parsed (mkSendOpts (Some "  ") None))
  = [OutError "--to / -t or WEBEX_TO required (room ID or person email)"; Exit 1].
Proof.
  destruct (main_flags_over_env (fun _ => None) (fun _ => inl ∅)
              (Some "token") (Some "R1") (Some "hi") (mkSendOpts (Some "  ") None))
    as (_ & _ & Hblank & _).
  apply (Hblank "token" "  "); [reflexivity | by vm_compute | reflexivity | reflexivity].
Defined.

Lemma mainWithStdin_body_witness :
  ∃ payload,
    created (SendMessage.mainWithStdin (fun _ => None) (fun _ => inl ∅)
               (mkEnv (Some "token") None None)
               (Parsed (mkSendOpts (Some "ana@example.com") None))
               false ["  Hello"; "world  "])
    = [payload]
    ∧ payload !! "markdown"
      = Some (JStr (String.append "Hello" (String (ascii_of_nat 10) "world"))).
Proof.
  destruct (mainWithStdin_body (fun _ => None) (fun _ => inl ∅)
              (mkEnv (Some "token") None None)
              (Parsed (mkSendOpts (Some "ana@example.com") None))
              false ["  Hello"; "world  "]) as (_ & _ & _ & _ & Hpipe & _).
  destruct (Hpipe (mkSendOpts (Some "ana@example.com") None) "token")
    as (payload & Hone & Hbody); try reflexivity; try (by vm_compute).
  exists payload. split; [exact Hone | exact Hbody].
Defined.

(** ** The script that reports counts *)

Section CountsScript.
Variable Date_getTime : JsVal → option Z.
Variable messages_list : JsVal → option Response.

(** X18: the counts script and the messages script agree: for the same
    room and the same listing, the number the first reports is the
    number of messages the second attaches, and 0 in both when the
    listing fails. *)
Theorem legacy_counts_agree (unreadRooms : list Room) (meId : JsVal) :
  Legacy.attachUnreadMessageCounts Date_getTime messages_list unreadRooms meId
  = map (fun a => Legacy.mkRoomWithCount (room a) (unreadMessageCount a))
      (attachUnreadMessages Date_getTime messages_list unreadRooms meId)
  ∧ ∀ r, Legacy.getUnreadMessageCount Date_getTime messages_list r meId
         = (fun unread => Z.of_nat (length unread))
           <$> getUnreadMessages Date_getTime messages_list r meId.
Proof.
  assert (∀ r, Legacy.getUnreadMessageCount Date_getTime messages_list r meId
               = (fun unread => Z.of_nat (length unread))
                 <$> getUnreadMessages Date_getTime messages_list r meId) as Hcount.
  { intros r. unfold Legacy.getUnreadMessageCount, getUnreadMessages.
    destruct (messages_list (room_id r)) as [resp|]; [| done]. cbn.
    by rewrite (Permutation_length (sortBy_perm _ _)). }
  split; [| exact Hcount].
  unfold Legacy.attachUnreadMessageCounts, attachUnreadMessages.
  rewrite map_map. apply map_ext. intros r.
  rewrite Hcount. unfold attachOne.
  by destruct (getUnreadMessages Date_getTime messages_list r meId).
Qed.


Variable rooms_listWithReadStatus : Z → option Response.

End CountsScript.

Lemma attachUnreadMessages_rooms_witness :
  let attached := attachUnreadMessages referenceDate Samples.listing
                    [Samples.groupRoom; Samples.directRoom] (JStr "ME") in
  ∃ a, attached !! 0%nat = Some a
       ∧ unreadMessageCount a = Z.of_nat (length (unreadMessages a)).
Proof.
  cbn zeta.
  destruct (attachUnreadMessages_rooms referenceDate Samples.listing
              [Samples.groupRoom; Samples.directRoom] (JStr "ME")) as (_ & Hall).
  exists (attachOne referenceDate Samples.listing (JStr "ME") Samples.groupRoom).
  split; [reflexivity |].
  apply Hall. simpl. by left.
Defined.

